(** * Sleep Schedule Analyzer: duration, store and pattern analysis

    A shallow embedding of [sleep_analyzer.py]:
    [calculate_sleep_duration], [add_sleep_entry], the "Clear All Data"
    action and [analyze_sleep_patterns].

    Conventions.
    - Python [float]s are idealised as real numbers ([R]); rounding is
      not modelled.  Everything the program computes on integers
      ([datetime], [timedelta]) is kept in [Z] and is executable.
    - A [datetime.date] is its proleptic ordinal, a [timedelta] is its
      length in microseconds.
    - A raised [ValueError] is the result [None]. *)

From Stdlib Require Import String Ascii ZArith List Bool Lia.
From Stdlib Require Import Reals Lra.
Import ListNotations.

Open Scope Z_scope.

(** ** [datetime.time], [datetime.datetime], [datetime.timedelta] *)

(** A naive [datetime.time] value. *)
Record time : Type := mkTime {
  hour : Z;
  minute : Z;
  second : Z;
  microsecond : Z
}.

(** The ranges a [time] object always satisfies in Python. *)
Definition time_in_range (h m s u : Z) : bool :=
  (0 <=? h) && (h <=? 23) && (0 <=? m) && (m <=? 59) &&
  (0 <=? s) && (s <=? 59) && (0 <=? u) && (u <=? 999999).

Definition valid_time (t : time) : Prop :=
  time_in_range (hour t) (minute t) (second t) (microsecond t) = true.

(** The constructor call [time(h, m)]: seconds and microseconds default
    to zero, and a field out of range raises [ValueError]. *)
Definition py_time (h m : Z) : option time :=
  if time_in_range h m 0 0 then Some (mkTime h m 0 0) else None.

(** What the program may be handed as a bedtime or a wake time: a
    naive [time] instance (no [tzinfo], as the time picker of the form
    returns it), or some other object whose [.hour] and [.minute]
    attributes are integers (a [datetime], a pandas [Timestamp], ...).
    Times carrying a time zone and objects without these attributes are
    outside the model. *)
Inductive timelike : Type :=
| IsTime (t : time)
| HasHourMinute (h m : Z).

Definition hour_of (x : timelike) : Z :=
  match x with IsTime t => hour t | HasHourMinute h _ => h end.

Definition minute_of (x : timelike) : Z :=
  match x with IsTime t => minute t | HasHourMinute _ m => m end.

(** The two branches of the conversion at the top of
    [calculate_sleep_duration]:
    [x if isinstance(x, time) else time(x.hour, x.minute)]. *)
Definition as_time (x : timelike) : option time :=
  match x with
  | IsTime t => Some t
  | HasHourMinute h m => py_time h m
  end.

Definition us_per_second : Z := 1000000.
Definition us_per_day : Z := 86400 * us_per_second.

(** Microseconds since midnight. *)
Definition time_us (t : time) : Z :=
  ((hour t * 60 + minute t) * 60 + second t) * us_per_second + microsecond t.

Record datetime : Type := mkDatetime {
  dt_date : Z;
  dt_time : time
}.

(** [datetime.combine(d, t)]. *)
Definition combine (d : Z) (t : time) : datetime := mkDatetime d t.

(** Position of a [datetime] on the microsecond time line. *)
Definition datetime_us (a : datetime) : Z :=
  dt_date a * us_per_day + time_us (dt_time a).

(** [a > b] on [datetime]s. *)
Definition datetime_gt (a b : datetime) : bool :=
  datetime_us a >? datetime_us b.

(** [a + timedelta(days=k)]. *)
Definition add_days (a : datetime) (k : Z) : datetime :=
  mkDatetime (dt_date a + k) (dt_time a).

(** [a - b], a [timedelta] in microseconds. *)
Definition datetime_sub (a b : datetime) : Z :=
  datetime_us a - datetime_us b.

(** [timedelta.total_seconds()]. *)
Definition total_seconds (td : Z) : R := (IZR td / 1000000)%R.

(** ** [calculate_sleep_duration] *)

(** The integer part of [calculate_sleep_duration]: the [timedelta]
    [waketime_dt - bedtime_dt] after the overnight adjustment.
    [today_b] and [today_w] are the dates returned by the two reads of
    [datetime.now().date()], the first for the bedtime and the second
    for the wake time. *)
Definition sleep_timedelta (today_b today_w : Z) (bt wt : time) : Z :=
  let bedtime_dt := combine today_b bt in
  let waketime_dt := combine today_w wt in
  let waketime_dt :=
    if datetime_gt bedtime_dt waketime_dt
    then add_days waketime_dt 1
    else waketime_dt in
  datetime_sub waketime_dt bedtime_dt.

Definition calculate_sleep_duration
    (today_b today_w : Z) (bedtime waketime : timelike) : option R :=
  match as_time bedtime with
  | None => None
  | Some bt =>
    match as_time waketime with
    | None => None
    | Some wt =>
      Some (total_seconds (sleep_timedelta today_b today_w bt wt) / 3600)%R
    end
  end.

(** ** Times of day as the specification sees them *)

(** A value the program can receive: a [time] instance is in range by
    construction; for any other object the fields handed to [time(h, m)]
    must be in range. *)
Definition valid_timelike (x : timelike) : Prop :=
  match x with
  | IsTime t => valid_time t
  | HasHourMinute h m => time_in_range h m 0 0 = true
  end.

(** The instant of the day the program reads from its argument, in
    microseconds: all four fields of a [time] instance, the hour and
    the minute of anything else. *)
Definition clock_us (x : timelike) : Z :=
  match x with
  | IsTime t => time_us t
  | HasHourMinute h m => (h * 60 + m) * 60 * us_per_second
  end.

(** The same instant in decimal hours. *)
Definition clock_hours (x : timelike) : R :=
  match x with
  | IsTime t =>
      (IZR (hour t) + IZR (minute t) / 60 + IZR (second t) / 3600
       + IZR (microsecond t) / 3600000000)%R
  | HasHourMinute h m => (IZR h + IZR m / 60)%R
  end.

(** A time of day in the sense of the specification: an hour and minute
    pair, as the time picker of the form produces it. *)
Definition time_of_day (h m : Z) : timelike := IsTime (mkTime h m 0 0).

(** An argument with nothing below the minute: a [time] instance with
    zero seconds and microseconds, or any non-[time] object (whose
    seconds the program never reads). *)
Definition whole_minute (x : timelike) : Prop :=
  match x with
  | IsTime t => second t = 0 /\ microsecond t = 0
  | HasHourMinute _ _ => True
  end.

(** [x] is a receivable argument that presents the time of day [h]:[m]
    and nothing below the minute. *)
Definition reads_as (h m : Z) (x : timelike) : Prop :=
  valid_timelike x /\ whole_minute x /\ hour_of x = h /\ minute_of x = m.




(** ** The session's data frame *)

(** A cell of the [Bedtime] or [WakeTime] column: an object with an
    [hour] attribute, or anything else. *)
Inductive cell : Type :=
| TimeCell (x : timelike)
| OtherCell.

(** [hasattr(x, 'hour')]. *)
Definition hasattr_hour (c : cell) : bool :=
  match c with TimeCell _ => true | OtherCell => false end.

(** One row of the frame with columns
    [['Date', 'Bedtime', 'WakeTime', 'SleepDuration']]. *)
Record row : Type := mkRow {
  Date : Z;
  Bedtime : cell;
  WakeTime : cell;
  SleepDuration : R
}.

(** A [DataFrame] with a fresh integer index is the list of its rows. *)
Definition DataFrame : Type := list row.

(** [pd.DataFrame(columns=[...])]: the frame the session starts with and
    the one "Clear All Data" installs. *)
Definition empty_frame : DataFrame := [].

(** [pd.concat([a, b], ignore_index=True)]. *)
Definition pd_concat (a b : DataFrame) : DataFrame := a ++ b.

(** [add_sleep_entry], as a function of the frame held in
    [st.session_state.sleep_data].  When the duration computation
    raises, the assignment to the session state is never reached. *)
Definition add_sleep_entry
    (today_b today_w : Z) (date : Z) (bedtime waketime : timelike)
    (sleep_data : DataFrame) : option DataFrame :=
  match calculate_sleep_duration today_b today_w bedtime waketime with
  | None => None
  | Some sleep_duration =>
      let new_entry :=
        [mkRow date (TimeCell bedtime) (TimeCell waketime) sleep_duration] in
      Some (pd_concat sleep_data new_entry)
  end.

(** What the user can do to the store during a session.  A submission
    carries the two dates that the clock returns while it is handled. *)
Inductive action : Type :=
| Submit (today_b today_w : Z) (date : Z) (bedtime waketime : timelike)
| ClearAll.

(** One script run.  A submission that raises leaves the stored frame
    as it was; the clear button installs the empty frame. *)
Definition session_step (sleep_data : DataFrame) (a : action) : DataFrame :=
  match a with
  | Submit today_b today_w date bedtime waketime =>
      match add_sleep_entry today_b today_w date bedtime waketime sleep_data with
      | Some sleep_data' => sleep_data'
      | None => sleep_data
      end
  | ClearAll => empty_frame
  end.

Definition session_run (acts : list action) (sleep_data : DataFrame) : DataFrame :=
  fold_left session_step acts sleep_data.

(** A submission of two receivable times: the one kind of submission
    that does not raise. *)
Definition submit_valid (a : action) : Prop :=
  match a with
  | Submit _ _ _ bedtime waketime =>
      valid_timelike bedtime /\ valid_timelike waketime
  | ClearAll => False
  end.

(** An action of a session in which every submission is of two
    receivable times and is handled within one calendar day, so that
    both clock reads return the same date. *)
Definition action_ok (a : action) : Prop :=
  match a with
  | Submit today_b today_w _ bedtime waketime =>
      today_b = today_w /\ valid_timelike bedtime /\ valid_timelike waketime
  | ClearAll => True
  end.

(** The row [r] holds what the submission [a] supplied, with the
    duration computed for it. *)
Definition row_matches (a : action) (r : row) : Prop :=
  match a with
  | Submit today_b today_w date bedtime waketime =>
      Date r = date /\ Bedtime r = TimeCell bedtime /\
      WakeTime r = TimeCell waketime /\
      calculate_sleep_duration today_b today_w bedtime waketime
      = Some (SleepDuration r)
  | ClearAll => False
  end.

(** The store invariant of the data model. *)
Definition duration_in_range (r : row) : Prop :=
  (0 <= SleepDuration r /\ SleepDuration r < 24)%R.

(** ** [Series.mean] and [Series.std] *)

(** Left-to-right accumulation of a column, in exact arithmetic: the
    rounding of each floating-point addition is not modelled, so the
    sum of a column is the sum of its values whatever their order. *)
Definition Series_sum (xs : list R) : R := fold_left Rplus xs 0%R.

(** [Series.mean()]: sum over count. *)
Definition Series_mean (xs : list R) : R :=
  (Series_sum xs / INR (length xs))%R.

(** [Series.var(ddof)]: the mean is taken first, then the squared
    deviations [(avg - v) ** 2] are summed and divided by
    [count - ddof]. *)
Definition Series_var (ddof : nat) (xs : list R) : R :=
  let avg := Series_mean xs in
  let sqr := map (fun v => ((avg - v) * (avg - v))%R) xs in
  (Series_sum sqr / (INR (length xs) - INR ddof))%R.

(** [Series.std()], whose default is [ddof=1]. *)
Definition Series_std (xs : list R) : R := sqrt (Series_var 1 xs).

(** ** [analyze_sleep_patterns] *)

Record AnalysisResult : Type := mkAnalysis {
  avg_sleep : R;
  sleep_consistency : R;
  recommendations : list string
}.

Definition msg_more_data : string :=
  "Add more data to get meaningful insights.".
Definition msg_duration_low : string :=
  "Your average sleep duration is below the recommended 7-8 hours. Try to go to bed earlier or wake up later.".
Definition msg_duration_high : string :=
  "Your average sleep duration is above the recommended 7-8 hours. While sleep needs vary, excessive sleep can sometimes indicate underlying health issues.".
Definition msg_duration_ok : string :=
  "Your average sleep duration is within the recommended range. Great job!".
Definition msg_bedtime_varies : string :=
  "Your bedtime varies significantly. Try to go to bed at the same time each night to improve sleep quality.".
Definition msg_bedtime_irregular : string :=
  "Your bedtime is somewhat irregular. Consider establishing a more consistent sleep schedule.".
Definition msg_bedtime_consistent : string :=
  "Your bedtime is consistent, which is excellent for maintaining healthy sleep patterns.".
Definition msg_duration_varies : string :=
  "Your sleep duration varies considerably. Aim for a consistent amount of sleep each night.".

(** The lambda applied to the [Bedtime] column:
    [x.hour + x.minute/60 if hasattr(x, 'hour') else 0]. *)
Definition bedtime_hours (c : cell) : R :=
  match c with
  | TimeCell x => (IZR (hour_of x) + IZR (minute_of x) / 60)%R
  | OtherCell => 0%R
  end.

(** [recommendations.append(s)]. *)
Definition list_append (l : list string) (s : string) : list string := l ++ [s].

Definition analyze_sleep_patterns (df : DataFrame) : AnalysisResult :=
  if (length df <? 2)%nat then
    mkAnalysis
      (if (0 <? length df)%nat then Series_mean (map SleepDuration df) else 0%R)
      0%R
      [msg_more_data]
  else
    let avg_sleep := Series_mean (map SleepDuration df) in
    let sleep_std := Series_std (map SleepDuration df) in
    let bedtimes := map bedtime_hours (map Bedtime df) in
    let bedtime_std := Series_std bedtimes in
    let recommendations := [] in
    let recommendations :=
      if Rlt_dec avg_sleep 7 then list_append recommendations msg_duration_low
      else if Rgt_dec avg_sleep 9 then list_append recommendations msg_duration_high
      else list_append recommendations msg_duration_ok in
    let recommendations :=
      if Rgt_dec bedtime_std 1.5 then list_append recommendations msg_bedtime_varies
      else if Rgt_dec bedtime_std 0.75 then list_append recommendations msg_bedtime_irregular
      else list_append recommendations msg_bedtime_consistent in
    let recommendations :=
      if Rgt_dec sleep_std 1.5 then list_append recommendations msg_duration_varies
      else recommendations in
    mkAnalysis avg_sleep bedtime_std recommendations.

(** ** The specification's vocabulary *)

(** A [SleepEntry] of the data model. *)
Record SleepEntry : Type := mkEntry {
  date : Z;
  bedtime : timelike;
  wakeTime : timelike;
  sleepDurationHours : R
}.

(** The row that stores an entry. *)
Definition row_of_entry (e : SleepEntry) : row :=
  mkRow (date e) (TimeCell (bedtime e)) (TimeCell (wakeTime e))
        (sleepDurationHours e).

(** The store's [snapshot()] as a sequence of rows is the frame itself;
    [frame_of_entries] goes the other way. *)
Definition frame_of_entries (es : list SleepEntry) : DataFrame :=
  map row_of_entry es.

(** "Convert bedtime to decimal hours: hour + minute/60". *)
Definition decimal_hours (x : timelike) : R :=
  (IZR (hour_of x) + IZR (minute_of x) / 60)%R.

(** Arithmetic mean: the sum of the values over their number. *)
Definition arithmetic_mean (xs : list R) : R :=
  (fold_right Rplus 0 xs / INR (length xs))%R.

(** Sample standard deviation: the square root of the sum of squared
    deviations from the mean over [n - 1]. *)
Definition sample_std_dev (xs : list R) : R :=
  let m := arithmetic_mean xs in
  sqrt (fold_right Rplus 0 (map (fun x => (x - m) * (x - m)) xs)
        / INR (length xs - 1))%R.

(** Three nights with durations 6, 6.5 and 7 hours and bedtimes 22:00,
    23:30 and 21:00. *)
Definition spec_example : DataFrame :=
  [mkRow 739193 (TimeCell (time_of_day 22 0)) (TimeCell (time_of_day 4 0)) 6%R;
   mkRow 739194 (TimeCell (time_of_day 23 30)) (TimeCell (time_of_day 6 0)) 6.5%R;
   mkRow 739195 (TimeCell (time_of_day 21 0)) (TimeCell (time_of_day 4 0)) 7%R].

(** ** Errors and derived data *)

(** An argument on which the conversion raises: an object that is not a
    [time] and whose hour or minute [time(h, m)] refuses. *)
Definition out_of_range_object (x : timelike) : Prop :=
  match x with
  | IsTime _ => False
  | HasHourMinute h m => time_in_range h m 0 0 = false
  end.

(** The stored duration of [r] is the one its own stored bedtime and
    wake time give, on whatever day it is computed again. *)
Definition row_recomputable (r : row) : Prop :=
  exists b w,
    Bedtime r = TimeCell b /\ WakeTime r = TimeCell w /\
    valid_timelike b /\ valid_timelike w /\
    forall today,
      calculate_sleep_duration today today b w = Some (SleepDuration r).

(** ** The page *)

(** The [delta] of the "Average Sleep Duration" metric:
    ["Good" if 7 <= analysis['avg_sleep'] <= 9 else "Needs improvement"]. *)
Definition avg_sleep_delta (analysis : AnalysisResult) : string :=
  if Rle_dec 7 (avg_sleep analysis) then
    if Rle_dec (avg_sleep analysis) 9 then "Good" else "Needs improvement"
  else "Needs improvement".

(** The [delta] of the "Bedtime Consistency" metric:
    ["Consistent" if analysis['sleep_consistency'] < 0.75 else "Variable"]. *)
Definition consistency_delta (analysis : AnalysisResult) : string :=
  if Rlt_dec (sleep_consistency analysis) 0.75 then "Consistent"
  else "Variable".

(** [df.empty]: the frame always has its four columns, so it is empty
    when it has no row. *)
Definition is_empty (df : DataFrame) : bool :=
  match df with [] => true | _ :: _ => false end.

(** What the right-hand column of the page shows: the analysis with the
    two metric deltas and the recommendations, or the invitation to add
    data. *)
Inductive analysis_column : Type :=
| SleepAnalysis (analysis : AnalysisResult)
                (avg_delta consistency_label : string)
| AddYourData.

(** The [with col2:] block.  The copy whose [Date] column is converted
    for the charts has the same [Bedtime] and [SleepDuration] columns. *)
Definition render_analysis_column (sleep_data : DataFrame) : analysis_column :=
  if negb (is_empty sleep_data) then
    let analysis_df := sleep_data in
    let analysis := analyze_sleep_patterns analysis_df in
    SleepAnalysis analysis (avg_sleep_delta analysis)
                  (consistency_delta analysis)
  else AddYourData.

(** The left-hand column shows the table and the "Clear All Data"
    button under the same test. *)
Definition clear_button_shown (sleep_data : DataFrame) : bool :=
  negb (is_empty sleep_data).

(** A decimal digit as a character. *)
Definition digit (d : Z) : ascii := ascii_of_nat (48 + Z.to_nat d).

(** A two-digit, zero-padded field of [strftime]. *)
Definition two_digits (n : Z) : string :=
  String (digit (n / 10)) (String (digit (n mod 10)) EmptyString).

(** [t.strftime('%H:%M')], how the table shows a bedtime or wake time
    that is a [time] instance. *)
Definition strftime_HM (t : time) : string :=
  (two_digits (hour t) ++ ":" ++ two_digits (minute t))%string.

(** Three nights with bedtimes 21:00, 21:45 and 22:30, three quarters
    of an hour apart. *)
Definition threshold_example : DataFrame :=
  [mkRow 739193 (TimeCell (time_of_day 21 0)) (TimeCell (time_of_day 5 0)) 8%R;
   mkRow 739194 (TimeCell (time_of_day 21 45)) (TimeCell (time_of_day 5 45)) 8%R;
   mkRow 739195 (TimeCell (time_of_day 22 30)) (TimeCell (time_of_day 6 30)) 8%R].

(** A submission of bedtime 22:00 and wake time 23:00 during whose
    handling midnight passes: the first read of the clock returns day
    739194, the second day 739195. *)
Definition midnight_submission : action :=
  Submit 739194 739195 739194 (time_of_day 22 0) (time_of_day 23 0).

(** * Properties *)

(** ** Times and the microsecond line *)

Lemma time_in_range_spec (h m s u : Z) :
  time_in_range h m s u = true <->
  0 <= h <= 23 /\ 0 <= m <= 59 /\ 0 <= s <= 59 /\ 0 <= u <= 999999.
Proof.
  unfold time_in_range.
  rewrite !andb_true_iff, !Z.leb_le. lia.
Qed.

Lemma as_time_valid (x : timelike) :
  valid_timelike x ->
  exists t, as_time x = Some t /\ valid_time t /\ time_us t = clock_us x.
Proof.
  destruct x as [t | h m]; simpl; intros Hv.
  - exists t. auto.
  - unfold py_time. rewrite Hv.
    exists (mkTime h m 0 0). repeat split; try assumption.
    unfold time_us; simpl. lia.
Qed.

Lemma time_us_bounds (t : time) :
  valid_time t -> 0 <= time_us t < us_per_day.
Proof.
  unfold valid_time. rewrite time_in_range_spec.
  unfold time_us, us_per_day, us_per_second. lia.
Qed.

Lemma clock_us_bounds (x : timelike) :
  valid_timelike x -> 0 <= clock_us x < us_per_day.
Proof.
  intros Hv. destruct (as_time_valid x Hv) as (t & _ & Ht & <-).
  now apply time_us_bounds.
Qed.

(** The two readings of an argument agree: microseconds are decimal
    hours times 3.6e9. *)
Lemma clock_us_hours (x : timelike) :
  (IZR (clock_us x) = clock_hours x * 3600000000)%R.
Proof.
  destruct x as [[h m s u] | h m]; unfold clock_us, clock_hours, time_us,
    us_per_second; cbn [hour minute second microsecond].
  - rewrite plus_IZR, mult_IZR, plus_IZR, mult_IZR, plus_IZR, mult_IZR. lra.
  - rewrite !mult_IZR, plus_IZR, mult_IZR. lra.
Qed.

(** For an argument with nothing below the minute the instant read is
    [hour + minute/60]. *)
Lemma clock_hours_whole_minute (x : timelike) :
  whole_minute x -> clock_hours x = decimal_hours x.
Proof.
  destruct x as [[h m s u] | h m]; unfold decimal_hours; simpl.
  - intros [-> ->]. lra.
  - reflexivity.
Qed.

(** ** The timedelta behind the duration *)

(** Unfolds the datetime layer down to integer arithmetic and splits on
    the overnight test. *)
Ltac timedelta_cases :=
  unfold sleep_timedelta, datetime_gt, datetime_sub, add_days, combine,
    datetime_us;
  cbn [dt_date dt_time];
  match goal with
  | |- context [?a >? ?b] => destruct (Z.gtb_spec a b)
  end;
  cbn [dt_date dt_time]; unfold us_per_day, us_per_second in *; lia.

Section SameDay.

(** Both reads of the clock fall on the day [today]. *)
Variable today : Z.
Variables bt wt : time.

Lemma sleep_timedelta_overnight :
  time_us wt < time_us bt ->
  sleep_timedelta today today bt wt = us_per_day + time_us wt - time_us bt.
Proof. intros Hlt. timedelta_cases. Qed.

Lemma sleep_timedelta_same_day :
  time_us bt <= time_us wt ->
  sleep_timedelta today today bt wt = time_us wt - time_us bt.
Proof. intros Hle. timedelta_cases. Qed.

End SameDay.

(** Moving both clock reads by the same number of days changes nothing. *)
Lemma sleep_timedelta_shift (k today_b today_w : Z) (bt wt : time) :
  sleep_timedelta (today_b + k) (today_w + k) bt wt
  = sleep_timedelta today_b today_w bt wt.
Proof.
  unfold sleep_timedelta, datetime_gt, datetime_sub, add_days, combine,
    datetime_us.
  cbn [dt_date dt_time].
  destruct (Z.gtb_spec ((today_b + k) * us_per_day + time_us bt)
                       ((today_w + k) * us_per_day + time_us wt));
    destruct (Z.gtb_spec (today_b * us_per_day + time_us bt)
                         (today_w * us_per_day + time_us wt));
    cbn [dt_date dt_time]; unfold us_per_day, us_per_second in *; lia.
Qed.

(** On receivable arguments the function returns, and its value is the
    timedelta between the instants read, in hours. *)
Lemma calculate_sleep_duration_returns (today_b today_w : Z) (b w : timelike) :
  valid_timelike b -> valid_timelike w ->
  exists bt wt,
    as_time b = Some bt /\ as_time w = Some wt /\
    time_us bt = clock_us b /\ time_us wt = clock_us w /\
    calculate_sleep_duration today_b today_w b w
    = Some (IZR (sleep_timedelta today_b today_w bt wt) / 3600000000)%R.
Proof.
  intros Hb Hw.
  destruct (as_time_valid b Hb) as (bt & Eb & _ & Ub).
  destruct (as_time_valid w Hw) as (wt & Ew & _ & Uw).
  exists bt, wt. repeat split; try assumption.
  unfold calculate_sleep_duration, total_seconds. rewrite Eb, Ew.
  f_equal. lra.
Qed.

(** ** Duration between two times of day *)

(** The value returned when both clock reads fall on one day, by the
    order of the two instants. *)
Lemma duration_overnight (today : Z) (b w : timelike) :
  valid_timelike b -> valid_timelike w ->
  clock_us w < clock_us b ->
  calculate_sleep_duration today today b w
  = Some (IZR (us_per_day + clock_us w - clock_us b) / 3600000000)%R.
Proof.
  intros Hb Hw Hlt.
  destruct (calculate_sleep_duration_returns today today b w Hb Hw)
    as (bt & wt & _ & _ & Ub & Uw & ->).
  rewrite sleep_timedelta_overnight by lia. now rewrite Ub, Uw.
Qed.

Lemma duration_same_day (today : Z) (b w : timelike) :
  valid_timelike b -> valid_timelike w ->
  clock_us b <= clock_us w ->
  calculate_sleep_duration today today b w
  = Some (IZR (clock_us w - clock_us b) / 3600000000)%R.
Proof.
  intros Hb Hw Hle.
  destruct (calculate_sleep_duration_returns today today b w Hb Hw)
    as (bt & wt & _ & _ & Ub & Uw & ->).
  rewrite sleep_timedelta_same_day by lia. now rewrite Ub, Uw.
Qed.

(** C1, as the code has it: for equal bedtime and wake time, with both
    reads of the clock on the same calendar day, the test
    [bedtime_dt > waketime_dt] is false, no day is added, and the
    duration is exactly 0 hours. *)
Theorem equal_times_duration_zero (today : Z) (b w : timelike) :
  valid_timelike b -> valid_timelike w ->
  clock_us b = clock_us w ->
  calculate_sleep_duration today today b w = Some 0%R.
Proof.
  intros Hb Hw Heq.
  rewrite duration_same_day by (assumption || lia).
  f_equal. rewrite Heq, Z.sub_diag. lra.
Qed.

Lemma equal_times_duration_zero_witness :
  valid_timelike (time_of_day 23 0) /\
  clock_us (time_of_day 23 0) = clock_us (HasHourMinute 23 0) /\
  calculate_sleep_duration 739194 739194
    (time_of_day 23 0) (HasHourMinute 23 0) = Some 0%R.
Proof.
  split; [reflexivity | split; [reflexivity |]].
  apply (equal_times_duration_zero 739194 (time_of_day 23 0) (HasHourMinute 23 0));
    reflexivity.
Defined.

(** C1 as stated fails: bedtime 23:00 and wake time 23:00 give 0 hours,
    not 24. *)
Lemma equal_times_not_24 :
  calculate_sleep_duration 739194 739194 (time_of_day 23 0) (time_of_day 23 0)
  = Some 0%R /\
  calculate_sleep_duration 739194 739194 (time_of_day 23 0) (time_of_day 23 0)
  <> Some 24%R.
Proof.
  assert (E : calculate_sleep_duration 739194 739194
                (time_of_day 23 0) (time_of_day 23 0) = Some 0%R).
  { unfold calculate_sleep_duration, total_seconds. cbn [as_time time_of_day].
    replace (sleep_timedelta 739194 739194 (mkTime 23 0 0 0) (mkTime 23 0 0 0))
      with 0 by (vm_compute; reflexivity).
    f_equal. lra. }
  split; [exact E |].
  rewrite E. intros H. injection H as H. lra.
Qed.



(** The same-day case as intended: when the wake time is strictly
    later in the day than the bedtime and both reads of the clock fall
    on one calendar day, the duration is [w - b] hours and no day is
    added. *)
Theorem same_day_duration (today : Z) (b w : timelike) :
  valid_timelike b -> valid_timelike w ->
  clock_us b < clock_us w ->
  calculate_sleep_duration today today b w
  = Some (clock_hours w - clock_hours b)%R.
Proof.
  intros Hb Hw Hlt.
  rewrite duration_same_day by (assumption || lia).
  f_equal. rewrite minus_IZR, !clock_us_hours. lra.
Qed.

Lemma same_day_duration_witness :
  valid_timelike (time_of_day 1 0) /\
  valid_timelike (time_of_day 8 45) /\
  clock_us (time_of_day 1 0) < clock_us (time_of_day 8 45) /\
  calculate_sleep_duration 739194 739194 (time_of_day 1 0) (time_of_day 8 45)
  = Some (clock_hours (time_of_day 8 45) - clock_hours (time_of_day 1 0))%R.
Proof.
  assert (Hb : valid_timelike (time_of_day 1 0)) by reflexivity.
  assert (Hw : valid_timelike (time_of_day 8 45)) by reflexivity.
  assert (Hlt : clock_us (time_of_day 1 0) < clock_us (time_of_day 8 45))
    by reflexivity.
  repeat split; try assumption.
  exact (same_day_duration 739194 _ _ Hb Hw Hlt).
Defined.

(** C3 on the code, when midnight passes between the two reads of the
    clock: bedtime 22:00 and wake time 23:00, a wake time strictly
    later in the day than the bedtime, give 25 hours and not the
    [w - b = 1] hour of the claim.  The wake time is combined with the
    next day's date, the test [bedtime_dt > waketime_dt] is false, and
    the difference spans the extra day. *)
Theorem later_wake_time_across_midnight :
  clock_us (time_of_day 22 0) < clock_us (time_of_day 23 0) /\
  calculate_sleep_duration 739194 739195 (time_of_day 22 0) (time_of_day 23 0)
  = Some 25%R /\
  calculate_sleep_duration 739194 739195 (time_of_day 22 0) (time_of_day 23 0)
  <> Some (clock_hours (time_of_day 23 0) - clock_hours (time_of_day 22 0))%R.
Proof.
  assert (E : calculate_sleep_duration 739194 739195
                (time_of_day 22 0) (time_of_day 23 0) = Some 25%R).
  { unfold calculate_sleep_duration, total_seconds. cbn [as_time time_of_day].
    replace (sleep_timedelta 739194 739195 (mkTime 22 0 0 0) (mkTime 23 0 0 0))
      with 90000000000 by (vm_compute; reflexivity).
    f_equal. lra. }
  split; [reflexivity | split; [exact E |]].
  rewrite E. cbn [clock_hours time_of_day hour minute second microsecond].
  intros H. injection H as H. lra.
Qed.

(** The reference date cancels out: shifting both clock reads by the
    same number of days leaves the result as it is, error or value. *)
Lemma calculate_sleep_duration_shift (k today_b today_w : Z) (b w : timelike) :
  calculate_sleep_duration (today_b + k) (today_w + k) b w
  = calculate_sleep_duration today_b today_w b w.
Proof.
  unfold calculate_sleep_duration.
  destruct (as_time b) as [bt |]; [| reflexivity].
  destruct (as_time w) as [wt |]; [| reflexivity].
  now rewrite sleep_timedelta_shift.
Qed.

Lemma reads_as_clock_us (h m : Z) (x : timelike) :
  reads_as h m x -> clock_us x = (h * 60 + m) * 60 * us_per_second.
Proof.
  intros (_ & Hwm & <- & <-).
  destruct x as [[h' m' s u] | h' m']; simpl in *.
  - destruct Hwm as [-> ->]. unfold time_us; simpl. lia.
  - reflexivity.
Qed.

(** With both clock reads on one day, the duration of two receivable
    arguments is determined by the two instants read. *)
Lemma duration_determined_by_clock (d1 d2 : Z) (b b' w w' : timelike) :
  valid_timelike b -> valid_timelike b' ->
  valid_timelike w -> valid_timelike w' ->
  clock_us b = clock_us b' -> clock_us w = clock_us w' ->
  exists hours,
    calculate_sleep_duration d1 d1 b w = Some hours /\
    calculate_sleep_duration d2 d2 b' w' = Some hours.
Proof.
  intros Hb Hb' Hw Hw' Eb Ew.
  destruct (Z_lt_le_dec (clock_us w) (clock_us b)) as [Hlt | Hle].
  - eexists. split.
    + now apply duration_overnight.
    + rewrite duration_overnight by (assumption || lia).
      now rewrite Eb, Ew.
  - eexists. split.
    + now apply duration_same_day.
    + rewrite duration_same_day by (assumption || lia).
      now rewrite Eb, Ew.
Qed.

(** For arguments with nothing below the minute the duration is a
    function of the hour and minute of bedtime and wake time only.  Two
    runs on two reference dates, given arguments presenting the same
    hours and minutes, both return, and return the same duration. *)
Theorem duration_depends_on_hour_minute_only
    (d1 d2 : Z) (hb mb hw mw : Z) (b b' w w' : timelike) :
  reads_as hb mb b -> reads_as hb mb b' ->
  reads_as hw mw w -> reads_as hw mw w' ->
  exists hours,
    calculate_sleep_duration d1 d1 b w = Some hours /\
    calculate_sleep_duration d2 d2 b' w' = Some hours.
Proof.
  intros Hb Hb' Hw Hw'.
  apply duration_determined_by_clock;
    try (match goal with H : reads_as _ _ ?x |- valid_timelike ?x =>
           exact (proj1 H) end).
  - now rewrite (reads_as_clock_us _ _ _ Hb), (reads_as_clock_us _ _ _ Hb').
  - now rewrite (reads_as_clock_us _ _ _ Hw), (reads_as_clock_us _ _ _ Hw').
Qed.

Lemma duration_depends_on_hour_minute_only_witness :
  reads_as 23 0 (time_of_day 23 0) /\
  reads_as 23 0 (HasHourMinute 23 0) /\
  reads_as 7 30 (time_of_day 7 30) /\
  reads_as 7 30 (HasHourMinute 7 30) /\
  exists hours,
    calculate_sleep_duration 739194 739194
      (time_of_day 23 0) (time_of_day 7 30) = Some hours /\
    calculate_sleep_duration 739560 739560
      (HasHourMinute 23 0) (HasHourMinute 7 30) = Some hours.
Proof.
  assert (H1 : reads_as 23 0 (time_of_day 23 0))
    by (repeat split; reflexivity).
  assert (H2 : reads_as 23 0 (HasHourMinute 23 0))
    by (repeat split; reflexivity).
  assert (H3 : reads_as 7 30 (time_of_day 7 30))
    by (repeat split; reflexivity).
  assert (H4 : reads_as 7 30 (HasHourMinute 7 30))
    by (repeat split; reflexivity).
  repeat (split; [assumption |]).
  exact (duration_depends_on_hour_minute_only
           739194 739560 23 0 7 30 _ _ _ _ H1 H2 H3 H4).
Defined.





(** With both clock reads on one day the duration of two receivable
    arguments lies in [0, 24). *)
Lemma duration_range (today : Z) (b w : timelike) :
  valid_timelike b -> valid_timelike w ->
  exists hours,
    calculate_sleep_duration today today b w = Some hours /\
    (0 <= hours < 24)%R.
Proof.
  intros Hb Hw.
  pose proof (clock_us_bounds b Hb) as Bb.
  pose proof (clock_us_bounds w Hw) as Bw.
  unfold us_per_day, us_per_second in Bb, Bw.
  destruct (Z_lt_le_dec (clock_us w) (clock_us b)) as [Hlt | Hle].
  - eexists. split; [now apply duration_overnight |].
    unfold us_per_day, us_per_second.
    split.
    + apply Rmult_le_pos; [apply IZR_le; lia | lra].
    + apply Rmult_lt_reg_r with 3600000000%R; [lra |].
      unfold Rdiv. rewrite Rmult_assoc, Rinv_l, Rmult_1_r by lra.
      replace (24 * 3600000000)%R with (IZR 86400000000) by lra.
      apply IZR_lt. lia.
  - eexists. split; [now apply duration_same_day |].
    split.
    + apply Rmult_le_pos; [apply IZR_le; lia | lra].
    + apply Rmult_lt_reg_r with 3600000000%R; [lra |].
      unfold Rdiv. rewrite Rmult_assoc, Rinv_l, Rmult_1_r by lra.
      replace (24 * 3600000000)%R with (IZR 86400000000) by lra.
      apply IZR_lt. lia.
Qed.

(** Both clock reads matter: a submission handled across midnight, the
    bedtime dated before and the wake time after it, is a day longer. *)
Remark duration_across_midnight :
  calculate_sleep_duration 739194 739195 (time_of_day 22 0) (time_of_day 23 0)
  = Some 25%R.
Proof.
  unfold calculate_sleep_duration, total_seconds. cbn [as_time time_of_day].
  replace (sleep_timedelta 739194 739195 (mkTime 22 0 0 0) (mkTime 23 0 0 0))
    with 90000000000 by (vm_compute; reflexivity).
  f_equal. lra.
Qed.

(** The seconds of a [time] instance are read; those of any other
    object are not. *)
Remark duration_reads_seconds_of_time :
  calculate_sleep_duration 739194 739194
    (IsTime (mkTime 7 0 0 0)) (IsTime (mkTime 7 0 36 0)) = Some (1 / 100)%R.
Proof.
  unfold calculate_sleep_duration, total_seconds. cbn [as_time].
  replace (sleep_timedelta 739194 739194 (mkTime 7 0 0 0) (mkTime 7 0 36 0))
    with 36000000 by (vm_compute; reflexivity).
  f_equal. lra.
Qed.

(** ** The store *)

Lemma session_run_app (xs ys : list action) (st : DataFrame) :
  session_run (xs ++ ys) st = session_run ys (session_run xs st).
Proof. apply fold_left_app. Qed.

(** A submission of receivable times appends one row holding the
    submitted values and the computed duration. *)
Lemma add_sleep_entry_appends
    (today_b today_w d : Z) (b w : timelike) (st : DataFrame) :
  valid_timelike b -> valid_timelike w ->
  exists hours,
    calculate_sleep_duration today_b today_w b w = Some hours /\
    add_sleep_entry today_b today_w d b w st
    = Some (st ++ [mkRow d (TimeCell b) (TimeCell w) hours]).
Proof.
  intros Hb Hw.
  destruct (calculate_sleep_duration_returns today_b today_w b w Hb Hw)
    as (bt & wt & _ & _ & _ & _ & E).
  eexists. split; [exact E |].
  unfold add_sleep_entry. now rewrite E.
Qed.

(** Within one calendar day the appended row satisfies the invariant. *)
Lemma add_sleep_entry_in_range
    (today d : Z) (b w : timelike) (st : DataFrame) :
  valid_timelike b -> valid_timelike w ->
  exists r,
    add_sleep_entry today today d b w st = Some (st ++ [r]) /\
    duration_in_range r.
Proof.
  intros Hb Hw.
  destruct (duration_range today b w Hb Hw) as (h & E & Hh).
  exists (mkRow d (TimeCell b) (TimeCell w) h). split.
  - unfold add_sleep_entry. now rewrite E.
  - exact Hh.
Qed.

Lemma session_step_in_range (st : DataFrame) (a : action) :
  action_ok a ->
  Forall duration_in_range st ->
  Forall duration_in_range (session_step st a).
Proof.
  destruct a as [tb tw d b w |]; simpl.
  - intros (-> & Hb & Hw) Hst.
    destruct (add_sleep_entry_in_range tw d b w st Hb Hw) as (r & -> & Hr).
    apply Forall_app. split; [assumption | now constructor].
  - intros _ _. constructor.
Qed.

(** The store invariant as intended: every stored duration is at least
    0 and below 24 after any sequence of clears and of submissions of
    valid times of day each handled within one calendar day, from the
    empty store or from any store that has the invariant. *)
Theorem store_durations_in_range (acts : list action) (st : DataFrame) :
  Forall action_ok acts ->
  Forall duration_in_range st ->
  Forall duration_in_range (session_run acts st).
Proof.
  intros Hacts. revert st.
  induction Hacts as [| a acts Ha _ IH]; intros st Hst; simpl.
  - exact Hst.
  - apply IH. now apply session_step_in_range.
Qed.

Lemma store_durations_in_range_witness :
  Forall action_ok
    [Submit 739194 739194 739193 (time_of_day 23 0) (time_of_day 7 0);
     ClearAll;
     Submit 739195 739195 739194 (time_of_day 6 0) (time_of_day 6 0)] /\
  Forall duration_in_range empty_frame /\
  Forall duration_in_range
    (session_run
       [Submit 739194 739194 739193 (time_of_day 23 0) (time_of_day 7 0);
        ClearAll;
        Submit 739195 739195 739194 (time_of_day 6 0) (time_of_day 6 0)]
       empty_frame).
Proof.
  assert (Hacts : Forall action_ok
    [Submit 739194 739194 739193 (time_of_day 23 0) (time_of_day 7 0);
     ClearAll;
     Submit 739195 739195 739194 (time_of_day 6 0) (time_of_day 6 0)]).
  { repeat constructor. }
  assert (Hst : Forall duration_in_range empty_frame) by constructor.
  split; [exact Hacts | split; [exact Hst |]].
  exact (store_durations_in_range _ _ Hacts Hst).
Defined.

(** C4 on the code, when midnight passes between the two reads of the
    clock: the submission of bedtime 22:00 and wake time 23:00, two
    valid times of day, is accepted and stores a duration of 25 hours,
    so the store no longer satisfies [sleepDurationHours < 24]. *)
Theorem store_invariant_broken_across_midnight :
  submit_valid midnight_submission /\
  session_run [midnight_submission] empty_frame
  = [mkRow 739194 (TimeCell (time_of_day 22 0))
           (TimeCell (time_of_day 23 0)) 25%R] /\
  ~ Forall duration_in_range (session_run [midnight_submission] empty_frame).
Proof.
  assert (E : calculate_sleep_duration 739194 739195
                (time_of_day 22 0) (time_of_day 23 0) = Some 25%R).
  { unfold calculate_sleep_duration, total_seconds. cbn [as_time time_of_day].
    replace (sleep_timedelta 739194 739195 (mkTime 22 0 0 0) (mkTime 23 0 0 0))
      with 90000000000 by (vm_compute; reflexivity).
    f_equal. lra. }
  assert (Erun : session_run [midnight_submission] empty_frame
                 = [mkRow 739194 (TimeCell (time_of_day 22 0))
                          (TimeCell (time_of_day 23 0)) 25%R]).
  { unfold session_run, midnight_submission.
    cbn [fold_left session_step]. unfold add_sleep_entry.
    rewrite E. reflexivity. }
  split; [split; reflexivity | split; [exact Erun |]].
  rewrite Erun. intros H. inversion H as [| r l Hr _]; subst.
  unfold duration_in_range in Hr. cbn [SleepDuration] in Hr. lra.
Qed.

(** C8: whatever the store holds and whatever is submitted, a clear
    leaves it with zero entries, and the analysis of the cleared store
    is the "add more data" result. *)
Theorem clear_resets_store_and_analysis (acts : list action) (st : DataFrame) :
  let cleared := session_run (acts ++ [ClearAll]) st in
  cleared = empty_frame /\
  length cleared = 0%nat /\
  analyze_sleep_patterns cleared = mkAnalysis 0%R 0%R [msg_more_data].
Proof.
  cbv zeta. rewrite session_run_app. simpl. auto.
Qed.

(** C9: each submission of valid times adds exactly one row, at the
    end, and leaves the rows before it as they were.  After [N]
    submissions the store holds its former rows followed by [N] new
    ones, in the order submitted; from the empty store, exactly those
    [N]. *)
Theorem submissions_append_in_order (acts : list action) (st : DataFrame) :
  Forall submit_valid acts ->
  exists rows,
    session_run acts st = st ++ rows /\
    Forall2 row_matches acts rows /\
    length rows = length acts.
Proof.
  intros Hacts. revert st.
  induction Hacts as [| a acts Ha _ IH]; intros st.
  - exists []. simpl. rewrite app_nil_r. repeat split. constructor.
  - destruct a as [tb tw d b w |]; [| contradiction].
    destruct Ha as [Hb Hw].
    destruct (add_sleep_entry_appends tb tw d b w st Hb Hw) as (h & Eh & E).
    simpl. rewrite E.
    destruct (IH (st ++ [mkRow d (TimeCell b) (TimeCell w) h]))
      as (rows & Erun & Hmatch & Hlen).
    exists (mkRow d (TimeCell b) (TimeCell w) h :: rows).
    split; [| split].
    + rewrite Erun, <- app_assoc. reflexivity.
    + constructor; [simpl; auto | exact Hmatch].
    + simpl. now rewrite Hlen.
Qed.

Lemma submissions_append_in_order_witness :
  Forall submit_valid
    [Submit 739194 739194 739193 (time_of_day 23 0) (time_of_day 7 0);
     Submit 739195 739195 739193 (HasHourMinute 22 15) (time_of_day 6 0)] /\
  exists rows,
    session_run
      [Submit 739194 739194 739193 (time_of_day 23 0) (time_of_day 7 0);
       Submit 739195 739195 739193 (HasHourMinute 22 15) (time_of_day 6 0)]
      empty_frame = empty_frame ++ rows /\
    Forall2 row_matches
      [Submit 739194 739194 739193 (time_of_day 23 0) (time_of_day 7 0);
       Submit 739195 739195 739193 (HasHourMinute 22 15) (time_of_day 6 0)]
      rows /\
    length rows = 2%nat.
Proof.
  assert (Hacts : Forall submit_valid
    [Submit 739194 739194 739193 (time_of_day 23 0) (time_of_day 7 0);
     Submit 739195 739195 739193 (HasHourMinute 22 15) (time_of_day 6 0)]).
  { repeat constructor. }
  split; [exact Hacts |].
  exact (submissions_append_in_order _ empty_frame Hacts).
Defined.

(** ** Mean and standard deviation *)

Lemma fold_left_Rplus (xs : list R) (a : R) :
  fold_left Rplus xs a = (a + fold_right Rplus 0 xs)%R.
Proof.
  revert a. induction xs as [| x xs IH]; intros a; simpl.
  - lra.
  - rewrite IH. lra.
Qed.

Lemma Series_sum_fold_right (xs : list R) :
  Series_sum xs = fold_right Rplus 0%R xs.
Proof. unfold Series_sum. rewrite fold_left_Rplus. lra. Qed.

(** [Series.mean] is the arithmetic mean. *)
Lemma Series_mean_arithmetic (xs : list R) :
  Series_mean xs = arithmetic_mean xs.
Proof.
  unfold Series_mean, arithmetic_mean. now rewrite Series_sum_fold_right.
Qed.

(** [Series.std] with its default [ddof=1] is the sample standard
    deviation, on a column of at least one value. *)
Lemma Series_std_sample (xs : list R) :
  (1 <= length xs)%nat -> Series_std xs = sample_std_dev xs.
Proof.
  intros Hn.
  unfold Series_std, Series_var, sample_std_dev.
  rewrite Series_sum_fold_right, Series_mean_arithmetic.
  rewrite minus_INR by exact Hn.
  f_equal. f_equal. f_equal.
  apply map_ext. intros x. ring.
Qed.

Lemma arithmetic_mean_singleton (x : R) : arithmetic_mean [x] = x.
Proof. unfold arithmetic_mean. simpl. field. Qed.

(** ** The analysis *)

Lemma ltb_2_false (n : nat) : (2 <= n)%nat -> (n <? 2)%nat = false.
Proof. intros H. apply Nat.ltb_ge. exact H. Qed.

(** C5: with fewer than two entries the average is 0 for no entry and
    the mean of the durations (the duration itself) for one; the
    bedtime consistency is 0 and the only recommendation is the "add
    more data" message. *)
Theorem analyze_fewer_than_two (df : DataFrame) :
  (length df < 2)%nat ->
  let result := analyze_sleep_patterns df in
  avg_sleep result
  = match df with
    | [] => 0%R
    | _ => arithmetic_mean (map SleepDuration df)
    end /\
  (forall r, df = [r] -> avg_sleep result = SleepDuration r) /\
  sleep_consistency result = 0%R /\
  recommendations result = [msg_more_data].
Proof.
  intros Hlen. cbv zeta.
  destruct df as [| r [| r' df]]; simpl in Hlen; try lia.
  - unfold analyze_sleep_patterns. simpl. repeat split.
    intros r H. discriminate H.
  - unfold analyze_sleep_patterns.
    cbn [length Nat.ltb Nat.leb avg_sleep sleep_consistency recommendations].
    rewrite Series_mean_arithmetic.
    repeat split.
    intros r0 H. injection H as <-. apply arithmetic_mean_singleton.
Qed.

Lemma analyze_fewer_than_two_witness :
  (length [mkRow 739193 (TimeCell (time_of_day 23 0))
                 (TimeCell (time_of_day 7 0)) 8%R] < 2)%nat /\
  sleep_consistency
    (analyze_sleep_patterns
       [mkRow 739193 (TimeCell (time_of_day 23 0))
              (TimeCell (time_of_day 7 0)) 8%R]) = 0%R.
Proof.
  split; [simpl; lia |].
  apply (analyze_fewer_than_two
           [mkRow 739193 (TimeCell (time_of_day 23 0))
                  (TimeCell (time_of_day 7 0)) 8%R]).
  simpl; lia.
Defined.

(** C6: with at least two entries the average is the arithmetic mean
    of the stored durations and the bedtime consistency is the sample
    standard deviation (divisor [n - 1]) of the bedtimes in decimal
    hours, [hour + minute/60]. *)
Theorem analyze_mean_and_bedtime_std (entries : list SleepEntry) :
  (2 <= length entries)%nat ->
  let result := analyze_sleep_patterns (frame_of_entries entries) in
  avg_sleep result = arithmetic_mean (map sleepDurationHours entries) /\
  sleep_consistency result
  = sample_std_dev (map (fun e => decimal_hours (bedtime e)) entries).
Proof.
  intros Hlen. cbv zeta.
  unfold analyze_sleep_patterns, frame_of_entries.
  rewrite length_map, (ltb_2_false _ Hlen).
  cbn [avg_sleep sleep_consistency].
  rewrite !map_map. cbn [SleepDuration Bedtime row_of_entry bedtime_hours].
  split.
  - apply Series_mean_arithmetic.
  - apply Series_std_sample. rewrite length_map. lia.
Qed.

Lemma analyze_mean_and_bedtime_std_witness :
  (2 <= length [mkEntry 739193 (time_of_day 22 0) (time_of_day 6 0) 8%R;
                mkEntry 739194 (time_of_day 23 30) (time_of_day 6 0) 6.5%R])%nat /\
  avg_sleep
    (analyze_sleep_patterns
       (frame_of_entries
          [mkEntry 739193 (time_of_day 22 0) (time_of_day 6 0) 8%R;
           mkEntry 739194 (time_of_day 23 30) (time_of_day 6 0) 6.5%R]))
  = arithmetic_mean [8%R; 6.5%R].
Proof.
  split; [simpl; lia |].
  apply (analyze_mean_and_bedtime_std
           [mkEntry 739193 (time_of_day 22 0) (time_of_day 6 0) 8%R;
            mkEntry 739194 (time_of_day 23 30) (time_of_day 6 0) 6.5%R]).
  simpl; lia.
Defined.

(** The three groups of recommendations, by the thresholds of the
    specification. *)
Lemma duration_message_cases (avg : R) (l : list string) :
  exists m,
    (if Rlt_dec avg 7 then list_append l msg_duration_low
     else if Rgt_dec avg 9 then list_append l msg_duration_high
     else list_append l msg_duration_ok) = l ++ [m] /\
    ((avg < 7 /\ m = msg_duration_low) \/
     (avg > 9 /\ m = msg_duration_high) \/
     (7 <= avg <= 9 /\ m = msg_duration_ok))%R.
Proof.
  unfold list_append.
  destruct (Rlt_dec avg 7) as [H7 | H7].
  - eexists. split; [reflexivity |]. left. auto.
  - destruct (Rgt_dec avg 9) as [H9 | H9].
    + eexists. split; [reflexivity |]. right. left. auto.
    + eexists. split; [reflexivity |]. right. right. split; [lra | reflexivity].
Qed.

Lemma bedtime_message_cases (sd : R) (l : list string) :
  exists m,
    (if Rgt_dec sd 1.5 then list_append l msg_bedtime_varies
     else if Rgt_dec sd 0.75 then list_append l msg_bedtime_irregular
     else list_append l msg_bedtime_consistent) = l ++ [m] /\
    ((sd > 1.5 /\ m = msg_bedtime_varies) \/
     (0.75 < sd <= 1.5 /\ m = msg_bedtime_irregular) \/
     (sd <= 0.75 /\ m = msg_bedtime_consistent))%R.
Proof.
  unfold list_append.
  destruct (Rgt_dec sd 1.5) as [H1 | H1].
  - eexists. split; [reflexivity |]. left. auto.
  - destruct (Rgt_dec sd 0.75) as [H2 | H2].
    + eexists. split; [reflexivity |]. right. left. split; [lra | reflexivity].
    + eexists. split; [reflexivity |]. right. right. split; [lra | reflexivity].
Qed.

Lemma variability_message_cases (sd : R) (l : list string) :
  exists tail,
    (if Rgt_dec sd 1.5 then list_append l msg_duration_varies else l)
    = l ++ tail /\
    ((sd > 1.5 /\ tail = [msg_duration_varies]) \/
     (sd <= 1.5 /\ tail = []))%R.
Proof.
  unfold list_append.
  destruct (Rgt_dec sd 1.5) as [H | H].
  - eexists. split; [reflexivity |]. left. auto.
  - exists []. split; [now rewrite app_nil_r |]. right. split; [lra | reflexivity].
Qed.



(** ** A worked example *)

Lemma sqrt_gt_threshold (v c : R) :
  (0 <= c)%R -> (c * c < v)%R -> (sqrt v > c)%R.
Proof.
  intros Hc Hv.
  replace c with (sqrt (c * c)) by (now apply sqrt_square).
  apply sqrt_lt_1_alt. split; [| exact Hv].
  change (0 <= Rsqr c)%R. apply Rle_0_sqr.
Qed.

Lemma sqrt_le_threshold (v c : R) :
  (0 <= c)%R -> (v <= c * c)%R -> (sqrt v <= c)%R.
Proof.
  intros Hc Hv.
  replace c with (sqrt (c * c)) by (now apply sqrt_square).
  apply sqrt_le_1_alt. exact Hv.
Qed.

(** The worked examples of the specification: average 6.5 gives the
    "below the recommended" message, and bedtimes 22:00, 23:30, 21:00
    (standard deviation about 1.26) give the "somewhat irregular" one. *)
Example analyze_spec_example :
  avg_sleep (analyze_sleep_patterns spec_example) = 6.5%R /\
  recommendations (analyze_sleep_patterns spec_example)
  = [msg_duration_low; msg_bedtime_irregular].
Proof.
  unfold analyze_sleep_patterns, spec_example.
  cbn [length Nat.ltb Nat.leb map SleepDuration Bedtime bedtime_hours
       hour_of minute_of time_of_day hour minute avg_sleep recommendations].
  assert (Em : (Series_mean [6; 6.5; 7] = 6.5)%R).
  { unfold Series_mean, Series_sum. simpl. lra. }
  assert (Ed : (Series_var 1 [6; 6.5; 7] = 0.25)%R).
  { unfold Series_var. rewrite Em. unfold Series_sum. simpl. lra. }
  assert (Eb : (Series_var 1 [IZR 22 + IZR 0 / 60; IZR 23 + IZR 30 / 60;
                              IZR 21 + IZR 0 / 60] = 19/12)%R).
  { unfold Series_var, Series_mean, Series_sum. simpl. field. }
  unfold Series_std. rewrite Em, Ed, Eb.
  split; [reflexivity |].
  destruct (Rlt_dec 6.5 7); [| lra].
  destruct (Rgt_dec (sqrt (19/12)) 1.5) as [H | _].
  { pose proof (sqrt_le_threshold (19/12) 1.5). lra. }
  destruct (Rgt_dec (sqrt (19/12)) 0.75) as [_ | H].
  2:{ pose proof (sqrt_gt_threshold (19/12) 0.75). lra. }
  destruct (Rgt_dec (sqrt 0.25) 1.5) as [H | _].
  { pose proof (sqrt_le_threshold 0.25 1.5). lra. }
  reflexivity.
Qed.

(** * Further properties of the code *)

(** ** Errors of the duration computation *)

Lemma as_time_None (x : timelike) :
  as_time x = None <-> out_of_range_object x.
Proof.
  destruct x as [t | h m]; simpl.
  - split; [discriminate | contradiction].
  - unfold py_time. destruct (time_in_range h m 0 0); split;
      intros H; try reflexivity; discriminate H.
Qed.

Lemma raises_on_out_of_range_object
    (today_b today_w : Z) (b w : timelike) :
  out_of_range_object b \/ out_of_range_object w ->
  calculate_sleep_duration today_b today_w b w = None.
Proof.
  rewrite <- !as_time_None. unfold calculate_sleep_duration.
  intros [H | H].
  - now rewrite H.
  - rewrite H. now destruct (as_time b).
Qed.

(** On the arguments of the model, naive [time] values and objects with
    integer hour and minute, the duration computation raises exactly
    when the bedtime or the wake time is a non-[time] object whose hour
    or minute [time(hour, minute)] refuses; two naive [time] values
    never make it raise, and the dates read from the clock play no
    part. *)
Theorem calculate_sleep_duration_raises_iff
    (today_b today_w : Z) (b w : timelike) :
  calculate_sleep_duration today_b today_w b w = None
  <-> out_of_range_object b \/ out_of_range_object w.
Proof.
  rewrite <- !as_time_None. unfold calculate_sleep_duration.
  destruct (as_time b) as [bt |], (as_time w) as [wt |]; split;
    intros H; try discriminate H; auto;
    destruct H as [H | H]; discriminate H.
Qed.

(** A submission on which the duration computation raises leaves the
    store exactly as it was. *)
Theorem failed_submission_keeps_store
    (today_b today_w d : Z) (b w : timelike) (st : DataFrame) :
  out_of_range_object b \/ out_of_range_object w ->
  add_sleep_entry today_b today_w d b w st = None /\
  session_step st (Submit today_b today_w d b w) = st.
Proof.
  intros H.
  apply (raises_on_out_of_range_object today_b today_w) in H.
  unfold session_step, add_sleep_entry. rewrite H. auto.
Qed.

Lemma failed_submission_keeps_store_witness :
  (out_of_range_object (HasHourMinute 24 0) \/
   out_of_range_object (time_of_day 7 0)) /\
  add_sleep_entry 739194 739194 739193
    (HasHourMinute 24 0) (time_of_day 7 0) spec_example = None /\
  session_step spec_example
    (Submit 739194 739194 739193 (HasHourMinute 24 0) (time_of_day 7 0))
  = spec_example.
Proof.
  assert (H : out_of_range_object (HasHourMinute 24 0) \/
              out_of_range_object (time_of_day 7 0)) by (left; reflexivity).
  split; [exact H |].
  exact (failed_submission_keeps_store 739194 739194 739193 _ _ spec_example H).
Defined.

(** ** Duration: order of the arguments and of the clock reads *)

Lemma IZR_us_hours (z : Z) (h : R) :
  (IZR z = h * 3600000000 -> IZR z / 3600000000 = h)%R.
Proof. intros ->. field. Qed.

(** Swapping bedtime and wake time gives the rest of the day: unless
    the two instants coincide, the two durations add up to 24 hours. *)
Theorem swapped_durations_sum_to_24 (today : Z) (b w : timelike) :
  valid_timelike b -> valid_timelike w ->
  clock_us b <> clock_us w ->
  exists there back,
    calculate_sleep_duration today today b w = Some there /\
    calculate_sleep_duration today today w b = Some back /\
    (there + back = 24)%R.
Proof.
  intros Hb Hw Hne.
  destruct (Z_lt_le_dec (clock_us w) (clock_us b)) as [Hlt | Hle].
  - eexists. eexists. split; [| split].
    + now apply duration_overnight.
    + apply duration_same_day; (assumption || lia).
    + unfold us_per_day, us_per_second.
      rewrite <- Rdiv_plus_distr, <- plus_IZR.
      replace (86400 * 1000000 + clock_us w - clock_us b
               + (clock_us b - clock_us w)) with 86400000000 by lia.
      lra.
  - eexists. eexists. split; [| split].
    + now apply duration_same_day.
    + apply duration_overnight; (assumption || lia).
    + unfold us_per_day, us_per_second.
      rewrite <- Rdiv_plus_distr, <- plus_IZR.
      replace (clock_us w - clock_us b
               + (86400 * 1000000 + clock_us b - clock_us w))
        with 86400000000 by lia.
      lra.
Qed.

Lemma swapped_durations_sum_to_24_witness :
  valid_timelike (time_of_day 23 0) /\
  valid_timelike (time_of_day 7 0) /\
  clock_us (time_of_day 23 0) <> clock_us (time_of_day 7 0) /\
  exists there back,
    calculate_sleep_duration 739194 739194
      (time_of_day 23 0) (time_of_day 7 0) = Some there /\
    calculate_sleep_duration 739194 739194
      (time_of_day 7 0) (time_of_day 23 0) = Some back /\
    (there + back = 24)%R.
Proof.
  assert (Hb : valid_timelike (time_of_day 23 0)) by reflexivity.
  assert (Hw : valid_timelike (time_of_day 7 0)) by reflexivity.
  assert (Hne : clock_us (time_of_day 23 0) <> clock_us (time_of_day 7 0))
    by (vm_compute; discriminate).
  repeat (split; [assumption |]).
  exact (swapped_durations_sum_to_24 739194 _ _ Hb Hw Hne).
Defined.

(** The duration is 0 exactly when the two instants coincide, and
    strictly positive otherwise. *)
Theorem duration_zero_iff_same_instant (today : Z) (b w : timelike) :
  valid_timelike b -> valid_timelike w ->
  exists hours,
    calculate_sleep_duration today today b w = Some hours /\
    (hours = 0%R <-> clock_us b = clock_us w) /\
    (clock_us b <> clock_us w -> (0 < hours)%R).
Proof.
  intros Hb Hw.
  pose proof (clock_us_bounds b Hb) as Bb.
  pose proof (clock_us_bounds w Hw) as Bw.
  unfold us_per_day, us_per_second in Bb, Bw.
  assert (Hpos : forall z, 0 < z -> (0 < IZR z / 3600000000)%R).
  { intros z Hz. apply Rdiv_lt_0_compat; [now apply IZR_lt | lra]. }
  destruct (Z_lt_le_dec (clock_us w) (clock_us b)) as [Hlt | Hle].
  - eexists. split; [now apply duration_overnight |].
    unfold us_per_day, us_per_second.
    assert (P := Hpos (86400 * 1000000 + clock_us w - clock_us b) ltac:(lia)).
    repeat split; intros; try lia; lra.
  - destruct (Z.eq_dec (clock_us b) (clock_us w)) as [Heq | Hne].
    + eexists. split; [now apply duration_same_day |].
      rewrite Heq, Z.sub_diag.
      repeat split; intros; try lia; try lra; try contradiction.
    + eexists. split; [now apply duration_same_day |].
      assert (P := Hpos (clock_us w - clock_us b) ltac:(lia)).
      repeat split; intros; try lia; lra.
Qed.

Lemma duration_zero_iff_same_instant_witness :
  valid_timelike (time_of_day 6 30) /\
  valid_timelike (HasHourMinute 6 30) /\
  exists hours,
    calculate_sleep_duration 739194 739194
      (time_of_day 6 30) (HasHourMinute 6 30) = Some hours /\
    (hours = 0%R <->
     clock_us (time_of_day 6 30) = clock_us (HasHourMinute 6 30)) /\
    (clock_us (time_of_day 6 30) <> clock_us (HasHourMinute 6 30) ->
     (0 < hours)%R).
Proof.
  assert (Hb : valid_timelike (time_of_day 6 30)) by reflexivity.
  assert (Hw : valid_timelike (HasHourMinute 6 30)) by reflexivity.
  repeat (split; [assumption |]).
  exact (duration_zero_iff_same_instant 739194 _ _ Hb Hw).
Defined.

(** The timedelta when the two clock reads differ: with the wake time
    dated later than the bedtime no day is added. *)
Lemma sleep_timedelta_later_read (today_b today_w : Z) (bt wt : time) :
  valid_time bt -> valid_time wt ->
  today_b < today_w ->
  sleep_timedelta today_b today_w bt wt
  = (today_w - today_b) * us_per_day + time_us wt - time_us bt.
Proof.
  intros Hb Hw Hlt.
  pose proof (time_us_bounds bt Hb). pose proof (time_us_bounds wt Hw).
  timedelta_cases.
Qed.

Lemma sleep_timedelta_nonneg (today_b today_w : Z) (bt wt : time) :
  valid_time bt -> valid_time wt ->
  today_b <= today_w ->
  0 <= sleep_timedelta today_b today_w bt wt.
Proof.
  intros Hb Hw Hle.
  pose proof (time_us_bounds bt Hb). pose proof (time_us_bounds wt Hw).
  timedelta_cases.
Qed.

(** Whatever two dates the clock returns, as long as it does not run
    backwards between the two reads, the duration is never negative. *)
Theorem duration_nonnegative_for_monotone_clock
    (today_b today_w : Z) (b w : timelike) :
  valid_timelike b -> valid_timelike w ->
  today_b <= today_w ->
  exists hours,
    calculate_sleep_duration today_b today_w b w = Some hours /\
    (0 <= hours)%R.
Proof.
  intros Hb Hw Hle.
  destruct (as_time_valid b Hb) as (bt & Eb & Vb & _).
  destruct (as_time_valid w Hw) as (wt & Ew & Vw & _).
  unfold calculate_sleep_duration. rewrite Eb, Ew.
  eexists. split; [reflexivity |].
  pose proof (sleep_timedelta_nonneg today_b today_w bt wt Vb Vw Hle) as Hnn.
  apply IZR_le in Hnn. unfold total_seconds. lra.
Qed.

Lemma duration_nonnegative_for_monotone_clock_witness :
  valid_timelike (time_of_day 23 59) /\
  valid_timelike (time_of_day 0 1) /\
  739194 <= 739195 /\
  exists hours,
    calculate_sleep_duration 739194 739195
      (time_of_day 23 59) (time_of_day 0 1) = Some hours /\
    (0 <= hours)%R.
Proof.
  assert (Hb : valid_timelike (time_of_day 23 59)) by reflexivity.
  assert (Hw : valid_timelike (time_of_day 0 1)) by reflexivity.
  assert (Hle : 739194 <= 739195) by lia.
  repeat (split; [assumption |]).
  exact (duration_nonnegative_for_monotone_clock 739194 739195 _ _ Hb Hw Hle).
Defined.

(** When midnight passes between the two reads of the clock, the wake
    time is already dated a day later, no day is added, and the result
    is [24 + w - b] hours whatever the order of the two times: a full
    day or more as soon as the wake time is not earlier than the
    bedtime. *)
Theorem duration_when_midnight_passes (today : Z) (b w : timelike) :
  valid_timelike b -> valid_timelike w ->
  calculate_sleep_duration today (today + 1) b w
  = Some (24 + clock_hours w - clock_hours b)%R /\
  (clock_us b <= clock_us w ->
   (24 <= 24 + clock_hours w - clock_hours b)%R).
Proof.
  intros Hb Hw.
  destruct (calculate_sleep_duration_returns today (today + 1) b w Hb Hw)
    as (bt & wt & Eb & Ew & Ub & Uw & ->).
  assert (Vb : valid_time bt).
  { destruct (as_time_valid b Hb) as (t & E & V & _). congruence. }
  assert (Vw : valid_time wt).
  { destruct (as_time_valid w Hw) as (t & E & V & _). congruence. }
  rewrite sleep_timedelta_later_read by (assumption || lia).
  split.
  - f_equal. apply IZR_us_hours.
    replace ((today + 1 - today) * us_per_day + time_us wt - time_us bt)
      with (86400000000 + clock_us w - clock_us b)
      by (unfold us_per_day, us_per_second; lia).
    rewrite minus_IZR, plus_IZR, !clock_us_hours. lra.
  - intros Hle. apply IZR_le in Hle. rewrite !clock_us_hours in Hle. lra.
Qed.

Lemma duration_when_midnight_passes_witness :
  valid_timelike (time_of_day 22 0) /\
  valid_timelike (time_of_day 23 0) /\
  calculate_sleep_duration 739194 (739194 + 1)
    (time_of_day 22 0) (time_of_day 23 0)
  = Some (24 + clock_hours (time_of_day 23 0)
             - clock_hours (time_of_day 22 0))%R.
Proof.
  assert (Hb : valid_timelike (time_of_day 22 0)) by reflexivity.
  assert (Hw : valid_timelike (time_of_day 23 0)) by reflexivity.
  repeat (split; [assumption |]).
  exact (proj1 (duration_when_midnight_passes 739194 _ _ Hb Hw)).
Defined.

(** ** The store over a session *)

(** What the store holds depends only on what happened since the last
    clear: everything before it, and the store it started from, is
    forgotten. *)
Theorem store_forgets_before_clear
    (before after : list action) (st : DataFrame) :
  session_run (before ++ ClearAll :: after) st
  = session_run after empty_frame.
Proof.
  rewrite session_run_app. reflexivity.
Qed.

Lemma session_step_length (st : DataFrame) (a : action) :
  (length (session_step st a) <= S (length st))%nat.
Proof.
  destruct a as [tb tw d b w |]; simpl.
  - unfold add_sleep_entry.
    destruct (calculate_sleep_duration tb tw b w); [| lia].
    unfold pd_concat. rewrite length_app. simpl. lia.
  - lia.
Qed.

(** One action adds at most one row, whether it succeeds, raises or
    clears: after any actions the store has at most as many rows more
    than it started with as there were actions. *)
Theorem store_grows_by_at_most_one_per_action
    (acts : list action) (st : DataFrame) :
  (length (session_run acts st) <= length st + length acts)%nat.
Proof.
  revert st. induction acts as [| a acts IH]; intros st; simpl.
  - lia.
  - specialize (IH (session_step st a)).
    pose proof (session_step_length st a). lia.
Qed.

(** On receivable arguments the result does not depend on the day on
    which both clock reads fall. *)
Lemma duration_same_on_any_day (today today' : Z) (b w : timelike) :
  calculate_sleep_duration today' today' b w
  = calculate_sleep_duration today today b w.
Proof.
  replace today' with (today + (today' - today)) by lia.
  apply calculate_sleep_duration_shift.
Qed.

Lemma session_step_recomputable (st : DataFrame) (a : action) :
  action_ok a ->
  Forall row_recomputable st ->
  Forall row_recomputable (session_step st a).
Proof.
  destruct a as [tb tw d b w |]; simpl.
  - intros (-> & Hb & Hw) Hst.
    destruct (add_sleep_entry_appends tw tw d b w st Hb Hw) as (h & Eh & ->).
    apply Forall_app. split; [assumption |].
    constructor; [| constructor].
    exists b, w. cbn [Bedtime WakeTime SleepDuration].
    repeat split; try assumption.
    intros today. rewrite <- Eh. apply duration_same_on_any_day.
  - intros _ _. constructor.
Qed.

(** The stored duration stays true to the stored times: in a session of
    valid submissions, each handled within one calendar day, every row
    of the store keeps a bedtime and a wake time from which the
    duration computation, run again on any later day, returns exactly
    the duration stored with them. *)
Theorem stored_duration_recomputable (acts : list action) (st : DataFrame) :
  Forall action_ok acts ->
  Forall row_recomputable st ->
  Forall row_recomputable (session_run acts st).
Proof.
  intros Hacts. revert st.
  induction Hacts as [| a acts Ha _ IH]; intros st Hst; simpl.
  - exact Hst.
  - apply IH. now apply session_step_recomputable.
Qed.

Lemma stored_duration_recomputable_witness :
  Forall action_ok
    [Submit 739194 739194 739193 (time_of_day 23 0) (time_of_day 7 0);
     Submit 739195 739195 739194 (HasHourMinute 1 30) (time_of_day 9 0)] /\
  Forall row_recomputable empty_frame /\
  Forall row_recomputable
    (session_run
       [Submit 739194 739194 739193 (time_of_day 23 0) (time_of_day 7 0);
        Submit 739195 739195 739194 (HasHourMinute 1 30) (time_of_day 9 0)]
       empty_frame).
Proof.
  assert (Hacts : Forall action_ok
    [Submit 739194 739194 739193 (time_of_day 23 0) (time_of_day 7 0);
     Submit 739195 739195 739194 (HasHourMinute 1 30) (time_of_day 9 0)]).
  { repeat constructor. }
  assert (Hst : Forall row_recomputable empty_frame) by constructor.
  split; [exact Hacts | split; [exact Hst |]].
  exact (stored_duration_recomputable _ _ Hacts Hst).
Defined.

(** ** Sums, means and deviations *)

Lemma sum_in_range (xs : list R) :
  Forall (fun x => 0 <= x < 24)%R xs ->
  (0 <= fold_right Rplus 0 xs <= 24 * INR (length xs))%R /\
  (xs <> [] -> fold_right Rplus 0 xs < 24 * INR (length xs))%R.
Proof.
  induction 1 as [| x xs Hx _ IH].
  - simpl. split; [lra | intros H; now contradiction H].
  - destruct IH as [IH _].
    change (length (x :: xs)) with (S (length xs)). rewrite S_INR.
    simpl. split; [| intros _]; lra.
Qed.

Lemma INR_length_pos {A : Type} (xs : list A) :
  xs <> [] -> (0 < INR (length xs))%R.
Proof.
  intros H. destruct xs as [| x xs]; [now contradiction H |].
  apply lt_0_INR. simpl. lia.
Qed.

(** A column whose values all equal [c] sums to [n * c]. *)
Lemma sum_constant (xs : list R) (c : R) :
  (forall x, In x xs -> x = c) ->
  fold_right Rplus 0%R xs = (INR (length xs) * c)%R.
Proof.
  induction xs as [| x xs IH]; intros H.
  - simpl. lra.
  - change (length (x :: xs)) with (S (length xs)). rewrite S_INR.
    simpl. rewrite IH by (intros y Hy; apply H; now right).
    rewrite (H x) by now left. lra.
Qed.

Lemma mean_constant (xs : list R) (c : R) :
  xs <> [] ->
  (forall x, In x xs -> x = c) ->
  Series_mean xs = c.
Proof.
  intros Hne H. rewrite Series_mean_arithmetic. unfold arithmetic_mean.
  rewrite (sum_constant xs c H).
  pose proof (INR_length_pos xs Hne). field. lra.
Qed.

(** A sum of non-negative terms is zero only if every term is. *)
Lemma sum_nonneg_zero (ys : list R) :
  Forall (fun y => 0 <= y)%R ys ->
  (0 <= fold_right Rplus 0 ys)%R /\
  (fold_right Rplus 0%R ys = 0%R -> forall y, In y ys -> y = 0%R).
Proof.
  induction 1 as [| y ys Hy _ [IHnn IHz]]; simpl.
  - split; [lra | intros _ y []].
  - split; [lra |]. intros Hsum z [<- | Hz].
    + lra.
    + apply IHz; [lra | exact Hz].
Qed.

Lemma squared_deviations_nonneg (avg : R) (xs : list R) :
  Forall (fun y => 0 <= y)%R (map (fun v => (avg - v) * (avg - v))%R xs).
Proof.
  apply Forall_forall. intros y Hy.
  apply in_map_iff in Hy as (v & <- & _).
  change (0 <= Rsqr (avg - v))%R. apply Rle_0_sqr.
Qed.

(** In exact arithmetic the standard deviation of a column of at least
    two values is zero exactly when all its values equal the mean. *)
Lemma Series_std_zero_iff (xs : list R) :
  (2 <= length xs)%nat ->
  Series_std xs = 0%R <-> (forall x, In x xs -> x = Series_mean xs).
Proof.
  intros Hn.
  assert (Hd : (0 < INR (length xs) - INR 1)%R).
  { apply le_INR in Hn. simpl in Hn |- *. lra. }
  pose proof (squared_deviations_nonneg (Series_mean xs) xs) as Hsq.
  destruct (sum_nonneg_zero _ Hsq) as [Hnn Hzero].
  unfold Series_std, Series_var. cbv zeta.
  rewrite Series_sum_fold_right.
  set (S := fold_right Rplus 0%R _) in *.
  split.
  - intros Hs x Hx.
    apply sqrt_eq_0 in Hs.
    + assert (ES : S = 0%R).
      { apply Rmult_eq_compat_r with (r := (INR (length xs) - INR 1)%R) in Hs.
        unfold Rdiv in Hs. rewrite Rmult_assoc, Rinv_l, Rmult_1_r in Hs by lra.
        lra. }
      assert (Hx0 : ((Series_mean xs - x) * (Series_mean xs - x) = 0)%R).
      { apply Hzero; [exact ES |]. apply in_map_iff. now exists x. }
      nra.
    + apply Rmult_le_pos; [exact Hnn |].
      left. now apply Rinv_0_lt_compat.
  - intros Hall.
    assert (ES : S = 0%R).
    { unfold S.
      rewrite (sum_constant _ 0%R); [lra |].
      intros y Hy. apply in_map_iff in Hy as (v & <- & Hv).
      rewrite (Hall v Hv). lra. }
    rewrite ES. unfold Rdiv. rewrite Rmult_0_l. apply sqrt_0.
Qed.

Lemma Series_std_constant (xs : list R) (c : R) :
  (2 <= length xs)%nat ->
  (forall x, In x xs -> x = c) ->
  Series_mean xs = c /\ Series_std xs = 0%R.
Proof.
  intros Hn H.
  assert (Hm : Series_mean xs = c).
  { apply mean_constant; [| exact H]. intros ->. simpl in Hn. lia. }
  split; [exact Hm |].
  apply Series_std_zero_iff; [exact Hn |].
  intros x Hx. rewrite Hm. now apply H.
Qed.

(** ** The analysis, further *)

(** The shape of the result on two rows or more. *)
Lemma analyze_at_least_two (df : DataFrame) :
  (2 <= length df)%nat ->
  let result := analyze_sleep_patterns df in
  avg_sleep result = Series_mean (map SleepDuration df) /\
  sleep_consistency result
  = Series_std (map bedtime_hours (map Bedtime df)) /\
  exists dm bm tail,
    recommendations result = dm :: bm :: tail /\
    ((avg_sleep result < 7 /\ dm = msg_duration_low) \/
     (avg_sleep result > 9 /\ dm = msg_duration_high) \/
     (7 <= avg_sleep result <= 9 /\ dm = msg_duration_ok))%R /\
    ((sleep_consistency result > 1.5 /\ bm = msg_bedtime_varies) \/
     (0.75 < sleep_consistency result <= 1.5 /\ bm = msg_bedtime_irregular) \/
     (sleep_consistency result <= 0.75 /\ bm = msg_bedtime_consistent))%R /\
    ((Series_std (map SleepDuration df) > 1.5 /\
      tail = [msg_duration_varies]) \/
     (Series_std (map SleepDuration df) <= 1.5 /\ tail = []))%R.
Proof.
  intros Hlen. cbv zeta.
  unfold analyze_sleep_patterns. rewrite (ltb_2_false _ Hlen).
  cbn [avg_sleep sleep_consistency recommendations].
  split; [reflexivity | split; [reflexivity |]].
  destruct (duration_message_cases (Series_mean (map SleepDuration df)) [])
    as (dm & -> & Hdm).
  destruct (bedtime_message_cases
              (Series_std (map bedtime_hours (map Bedtime df))) ([] ++ [dm]))
    as (bm & -> & Hbm).
  destruct (variability_message_cases
              (Series_std (map SleepDuration df)) (([] ++ [dm]) ++ [bm]))
    as (tail & -> & Htail).
  exists dm, bm, tail. cbn [app]. repeat split; assumption.
Qed.

(** On a frame that is not empty the returned average is the mean of
    the durations, in either branch. *)
Lemma avg_sleep_nonempty (df : DataFrame) :
  df <> [] ->
  avg_sleep (analyze_sleep_patterns df)
  = arithmetic_mean (map SleepDuration df).
Proof.
  intros Hne. rewrite <- Series_mean_arithmetic.
  unfold analyze_sleep_patterns.
  destruct df as [| r df]; [now contradiction Hne |].
  destruct (length (r :: df) <? 2)%nat; reflexivity.
Qed.

(** The average of stored durations is itself a possible duration: on
    a frame that is not empty and whose durations lie in [0, 24), the
    returned average lies in [0, 24). *)
Theorem average_in_range (df : DataFrame) :
  df <> [] ->
  Forall duration_in_range df ->
  (0 <= avg_sleep (analyze_sleep_patterns df) < 24)%R.
Proof.
  intros Hne Hall.
  rewrite (avg_sleep_nonempty df Hne). unfold arithmetic_mean.
  assert (Hxs : Forall (fun x => 0 <= x < 24)%R (map SleepDuration df)).
  { apply Forall_map. exact Hall. }
  assert (Hne' : map SleepDuration df <> []).
  { intros E. apply map_eq_nil in E. contradiction. }
  destruct (sum_in_range _ Hxs) as [[Hlo _] Hhi].
  specialize (Hhi Hne').
  pose proof (INR_length_pos _ Hne') as Hn.
  split.
  - apply Rmult_le_pos; [exact Hlo |]. left. now apply Rinv_0_lt_compat.
  - apply Rmult_lt_reg_r with (INR (length (map SleepDuration df)));
      [exact Hn |].
    unfold Rdiv. rewrite Rmult_assoc, Rinv_l, Rmult_1_r by lra. exact Hhi.
Qed.

Lemma average_in_range_witness :
  [mkRow 739193 (TimeCell (time_of_day 23 0)) (TimeCell (time_of_day 7 0)) 8%R]
  <> [] /\
  Forall duration_in_range
    [mkRow 739193 (TimeCell (time_of_day 23 0)) (TimeCell (time_of_day 7 0)) 8%R] /\
  (0 <= avg_sleep
          (analyze_sleep_patterns
             [mkRow 739193 (TimeCell (time_of_day 23 0))
                    (TimeCell (time_of_day 7 0)) 8%R]) < 24)%R.
Proof.
  assert (Hne : [mkRow 739193 (TimeCell (time_of_day 23 0))
                       (TimeCell (time_of_day 7 0)) 8%R] <> [])
    by discriminate.
  assert (Hall : Forall duration_in_range
    [mkRow 739193 (TimeCell (time_of_day 23 0)) (TimeCell (time_of_day 7 0)) 8%R]).
  { constructor; [| constructor]. unfold duration_in_range. simpl. lra. }
  split; [exact Hne | split; [exact Hall |]].
  exact (average_in_range _ Hne Hall).
Defined.

(** The same bedtime every night counts as consistent: with two rows
    or more that all have the same bedtime in decimal hours, the
    bedtime recommendation is the "consistent" one and the metric is
    marked "Consistent". *)
Theorem identical_bedtimes_are_consistent (df : DataFrame) :
  (2 <= length df)%nat ->
  (forall r r', In r df -> In r' df ->
     bedtime_hours (Bedtime r) = bedtime_hours (Bedtime r')) ->
  let result := analyze_sleep_patterns df in
  nth_error (recommendations result) 1 = Some msg_bedtime_consistent /\
  consistency_delta result = "Consistent"%string.
Proof.
  intros Hlen Hall. cbv zeta.
  destruct (analyze_at_least_two df Hlen)
    as (_ & Ec & dm & bm & tail & Er & _ & Hbm & _).
  assert (E0 : sleep_consistency (analyze_sleep_patterns df) = 0%R).
  { rewrite Ec.
    destruct df as [| r0 df]; [simpl in Hlen; lia |].
    apply (Series_std_constant _ (bedtime_hours (Bedtime r0))).
    - now rewrite !length_map.
    - intros x Hx. rewrite map_map in Hx.
      apply in_map_iff in Hx as (r & <- & Hr).
      apply Hall; [exact Hr | now left]. }
  split.
  - rewrite Er. cbn [nth_error]. f_equal.
    destruct Hbm as [[H _] | [[[H _] _] | [_ ->]]]; [lra | lra | reflexivity].
  - unfold consistency_delta. rewrite E0.
    destruct (Rlt_dec 0 0.75) as [_ | H]; [reflexivity | lra].
Qed.

Lemma identical_bedtimes_are_consistent_witness :
  (2 <= length [mkRow 739193 (TimeCell (time_of_day 23 54))
                      (TimeCell (time_of_day 6 0)) 6.1%R;
                mkRow 739194 (TimeCell (HasHourMinute 23 54))
                      (TimeCell (time_of_day 7 0)) 7.1%R])%nat /\
  nth_error
    (recommendations
       (analyze_sleep_patterns
          [mkRow 739193 (TimeCell (time_of_day 23 54))
                 (TimeCell (time_of_day 6 0)) 6.1%R;
           mkRow 739194 (TimeCell (HasHourMinute 23 54))
                 (TimeCell (time_of_day 7 0)) 7.1%R])) 1
  = Some msg_bedtime_consistent.
Proof.
  split; [simpl; lia |].
  apply (identical_bedtimes_are_consistent
           [mkRow 739193 (TimeCell (time_of_day 23 54))
                  (TimeCell (time_of_day 6 0)) 6.1%R;
            mkRow 739194 (TimeCell (HasHourMinute 23 54))
                  (TimeCell (time_of_day 7 0)) 7.1%R]).
  - simpl; lia.
  - intros r r' [<- | [<- | []]] [<- | [<- | []]]; reflexivity.
Defined.

(** Identical durations leave nothing to say about variability: with
    two rows or more that all hold the same duration, the "varies
    considerably" message is absent and there are exactly two
    recommendations. *)
Theorem identical_durations_no_variability_message (df : DataFrame) (c : R) :
  (2 <= length df)%nat ->
  (forall r, In r df -> SleepDuration r = c) ->
  let result := analyze_sleep_patterns df in
  length (recommendations result) = 2%nat /\
  ~ In msg_duration_varies (recommendations result).
Proof.
  intros Hlen Hall. cbv zeta.
  destruct (analyze_at_least_two df Hlen)
    as (_ & _ & dm & bm & tail & Er & Hdm & Hbm & Htail).
  assert (Hc : forall x, In x (map SleepDuration df) -> x = c).
  { intros x Hx. apply in_map_iff in Hx as (r & <- & Hr). now apply Hall. }
  destruct (Series_std_constant (map SleepDuration df) c) as [_ Es];
    [now rewrite length_map | exact Hc |].
  rewrite Es in Htail.
  destruct Htail as [[H _] | [_ ->]]; [lra |].
  rewrite Er. split; [reflexivity |].
  intros [E | [E | []]].
  - destruct Hdm as [[_ ->] | [[_ ->] | [_ ->]]]; discriminate E.
  - destruct Hbm as [[_ ->] | [[_ ->] | [_ ->]]]; discriminate E.
Qed.

Lemma identical_durations_no_variability_message_witness :
  (2 <= length [mkRow 739193 (TimeCell (time_of_day 22 0))
                      (TimeCell (time_of_day 5 54)) 7.9%R;
                mkRow 739194 (TimeCell (time_of_day 23 0))
                      (TimeCell (time_of_day 6 54)) 7.9%R])%nat /\
  length
    (recommendations
       (analyze_sleep_patterns
          [mkRow 739193 (TimeCell (time_of_day 22 0))
                 (TimeCell (time_of_day 5 54)) 7.9%R;
           mkRow 739194 (TimeCell (time_of_day 23 0))
                 (TimeCell (time_of_day 6 54)) 7.9%R])) = 2%nat.
Proof.
  split; [simpl; lia |].
  apply (identical_durations_no_variability_message
           [mkRow 739193 (TimeCell (time_of_day 22 0))
                  (TimeCell (time_of_day 5 54)) 7.9%R;
            mkRow 739194 (TimeCell (time_of_day 23 0))
                  (TimeCell (time_of_day 6 54)) 7.9%R] 7.9%R).
  - simpl; lia.
  - intros r [<- | [<- | []]]; reflexivity.
Defined.

(** ** The metrics beside the recommendations *)

(** With two rows or more the two metric deltas and the recommendations
    tell the same story, up to one boundary: the average is marked
    "Good" exactly when the duration recommendation is the "within the
    recommended range" one, and a bedtime marked "Consistent" always
    comes with the "consistent" recommendation. *)
Theorem metric_deltas_agree_with_recommendations (df : DataFrame) :
  (2 <= length df)%nat ->
  let result := analyze_sleep_patterns df in
  (avg_sleep_delta result = "Good"%string <->
   nth_error (recommendations result) 0 = Some msg_duration_ok) /\
  (consistency_delta result = "Consistent"%string ->
   nth_error (recommendations result) 1 = Some msg_bedtime_consistent).
Proof.
  intros Hlen. cbv zeta.
  destruct (analyze_at_least_two df Hlen)
    as (_ & _ & dm & bm & tail & Er & Hdm & Hbm & _).
  rewrite Er. cbn [nth_error].
  unfold avg_sleep_delta, consistency_delta.
  split.
  - destruct (Rle_dec 7 (avg_sleep (analyze_sleep_patterns df))) as [H7 | H7];
      [destruct (Rle_dec (avg_sleep (analyze_sleep_patterns df)) 9)
         as [H9 | H9] |];
      destruct Hdm as [[H ->] | [[H ->] | [H ->]]];
      try lra; split; intros E; try reflexivity; try discriminate E;
      injection E as E; discriminate E.
  - destruct (Rlt_dec (sleep_consistency (analyze_sleep_patterns df)) 0.75)
      as [Hc | Hc]; [| intros E; discriminate E].
    intros _. destruct Hbm as [[H _] | [[H _] | [_ ->]]];
      [lra | lra | reflexivity].
Qed.

Lemma metric_deltas_agree_with_recommendations_witness :
  (2 <= length spec_example)%nat /\
  (avg_sleep_delta (analyze_sleep_patterns spec_example) = "Good"%string <->
   nth_error (recommendations (analyze_sleep_patterns spec_example)) 0
   = Some msg_duration_ok).
Proof.
  split; [simpl; lia |].
  apply (metric_deltas_agree_with_recommendations spec_example).
  simpl; lia.
Defined.

(** At a bedtime standard deviation of exactly 0.75 the two disagree:
    the metric tests [< 0.75] and says "Variable", the recommendation
    tests [> 0.75] and says the bedtime is consistent. *)
Theorem consistency_label_differs_at_threshold (df : DataFrame) :
  (2 <= length df)%nat ->
  sleep_consistency (analyze_sleep_patterns df) = 0.75%R ->
  consistency_delta (analyze_sleep_patterns df) = "Variable"%string /\
  nth_error (recommendations (analyze_sleep_patterns df)) 1
  = Some msg_bedtime_consistent.
Proof.
  intros Hlen Hc.
  destruct (analyze_at_least_two df Hlen)
    as (_ & _ & dm & bm & tail & Er & _ & Hbm & _).
  rewrite Er. cbn [nth_error]. unfold consistency_delta.
  rewrite Hc in Hbm |- *.
  split.
  - destruct (Rlt_dec 0.75 0.75) as [H | _]; [lra | reflexivity].
  - destruct Hbm as [[H _] | [[H _] | [_ ->]]]; [lra | lra | reflexivity].
Qed.

Lemma threshold_example_consistency :
  sleep_consistency (analyze_sleep_patterns threshold_example) = 0.75%R.
Proof.
  unfold analyze_sleep_patterns, threshold_example.
  cbn [length Nat.ltb Nat.leb map Bedtime bedtime_hours hour_of minute_of
       time_of_day hour minute sleep_consistency].
  assert (Ev : (Series_var 1 [IZR 21 + IZR 0 / 60; IZR 21 + IZR 45 / 60;
                              IZR 22 + IZR 30 / 60] = 9 / 16)%R).
  { unfold Series_var, Series_mean, Series_sum. simpl. field. }
  unfold Series_std. rewrite Ev.
  replace (9 / 16)%R with (0.75 * 0.75)%R by lra.
  apply sqrt_square. lra.
Qed.

Lemma consistency_label_differs_at_threshold_witness :
  (2 <= length threshold_example)%nat /\
  sleep_consistency (analyze_sleep_patterns threshold_example) = 0.75%R /\
  consistency_delta (analyze_sleep_patterns threshold_example)
  = "Variable"%string /\
  nth_error (recommendations (analyze_sleep_patterns threshold_example)) 1
  = Some msg_bedtime_consistent.
Proof.
  assert (Hlen : (2 <= length threshold_example)%nat) by (simpl; lia).
  split; [exact Hlen | split; [exact threshold_example_consistency |]].
  exact (consistency_label_differs_at_threshold
           threshold_example Hlen threshold_example_consistency).
Defined.

(** ** What the page shows *)

(** The analysis is on the page exactly when the store has a row; what
    is then shown is the analysis of the store, its average is the mean
    of the stored durations (the analyzer's default of 0 for no entry
    never reaches the page), and the clear button is there with it. *)
Theorem analysis_shown_iff_store_nonempty (sleep_data : DataFrame) :
  (render_analysis_column sleep_data = AddYourData <-> sleep_data = []) /\
  (clear_button_shown sleep_data = false <-> sleep_data = []) /\
  (forall analysis avg_delta label,
     render_analysis_column sleep_data
     = SleepAnalysis analysis avg_delta label ->
     sleep_data <> [] /\
     analysis = analyze_sleep_patterns sleep_data /\
     avg_sleep analysis = arithmetic_mean (map SleepDuration sleep_data)).
Proof.
  unfold render_analysis_column, clear_button_shown.
  destruct sleep_data as [| r df]; cbn [is_empty negb].
  - repeat split; intros; try reflexivity; discriminate.
  - split; [split; intros H; discriminate H |].
    split; [split; intros H; discriminate H |].
    intros analysis avg_delta label H. injection H as <- _ _.
    split; [discriminate |]. split; [reflexivity |].
    apply avg_sleep_nonempty. discriminate.
Qed.

(** After "Clear All Data" the page shows the invitation to add data
    and no clear button, whatever came before. *)
Theorem page_after_clear (acts : list action) (st : DataFrame) :
  render_analysis_column (session_run (acts ++ [ClearAll]) st) = AddYourData /\
  clear_button_shown (session_run (acts ++ [ClearAll]) st) = false.
Proof.
  rewrite session_run_app. split; reflexivity.
Qed.

(** With a single row the page shows that row's duration as the
    average, a bedtime consistency of 0 marked "Consistent", and the
    "add more data" message as the only recommendation. *)
Theorem page_with_single_entry (r : row) :
  exists analysis avg_delta,
    render_analysis_column [r]
    = SleepAnalysis analysis avg_delta "Consistent"%string /\
    avg_sleep analysis = SleepDuration r /\
    sleep_consistency analysis = 0%R /\
    recommendations analysis = [msg_more_data].
Proof.
  unfold render_analysis_column. cbn [is_empty negb].
  eexists. eexists. split; [| split; [| split]].
  - f_equal. unfold consistency_delta, analyze_sleep_patterns.
    cbn [length Nat.ltb Nat.leb sleep_consistency].
    destruct (Rlt_dec 0 0.75) as [_ | H]; [reflexivity | lra].
  - unfold analyze_sleep_patterns.
    cbn [length Nat.ltb Nat.leb avg_sleep map].
    rewrite Series_mean_arithmetic. apply arithmetic_mean_singleton.
  - reflexivity.
  - reflexivity.
Qed.

(** ** How a time is displayed *)

Lemma digit_inj (a b : Z) :
  0 <= a <= 9 -> 0 <= b <= 9 -> digit a = digit b -> a = b.
Proof.
  intros Ha Hb H. unfold digit in H.
  apply (f_equal nat_of_ascii) in H.
  assert (Ba : (48 + Z.to_nat a < 256)%nat) by (clear H; lia).
  assert (Bb : (48 + Z.to_nat b < 256)%nat) by (clear H; lia).
  rewrite (nat_ascii_embedding _ Ba), (nat_ascii_embedding _ Bb) in H.
  lia.
Qed.

Lemma two_digits_inj (a b : Z) :
  0 <= a <= 99 -> 0 <= b <= 99 -> two_digits a = two_digits b -> a = b.
Proof.
  intros Ha Hb H. unfold two_digits in H.
  injection H as Hq Hr.
  assert (Qa : 0 <= a / 10 <= 9)
    by (clear Hq Hr; Z.div_mod_to_equations; lia).
  assert (Qb : 0 <= b / 10 <= 9)
    by (clear Hq Hr; Z.div_mod_to_equations; lia).
  assert (Ra : 0 <= a mod 10 <= 9)
    by (clear Hq Hr; Z.div_mod_to_equations; lia).
  assert (Rb : 0 <= b mod 10 <= 9)
    by (clear Hq Hr; Z.div_mod_to_equations; lia).
  apply (digit_inj _ _ Qa Qb) in Hq.
  apply (digit_inj _ _ Ra Rb) in Hr.
  rewrite (Z.div_mod a 10), (Z.div_mod b 10) by lia.
  now rewrite Hq, Hr.
Qed.

(** The table shows a [time] as five characters that carry its hour and
    minute and nothing else: two times are displayed alike exactly when
    they agree on hour and minute, whatever their seconds. *)
Theorem strftime_HM_shows_hour_and_minute (t1 t2 : time) :
  valid_time t1 -> valid_time t2 ->
  String.length (strftime_HM t1) = 5%nat /\
  (strftime_HM t1 = strftime_HM t2
   <-> hour t1 = hour t2 /\ minute t1 = minute t2).
Proof.
  unfold valid_time. rewrite !time_in_range_spec.
  intros V1 V2. unfold strftime_HM. split; [reflexivity |].
  split.
  - intros H.
    unfold two_digits in H. cbn [String.append] in H.
    injection H as H1 H2 H3 H4.
    split; apply two_digits_inj; try lia; unfold two_digits; congruence.
  - intros [-> ->]. reflexivity.
Qed.

Lemma strftime_HM_shows_hour_and_minute_witness :
  valid_time (mkTime 7 5 0 0) /\
  valid_time (mkTime 7 5 59 0) /\
  strftime_HM (mkTime 7 5 0 0) = "07:05"%string /\
  (strftime_HM (mkTime 7 5 0 0) = strftime_HM (mkTime 7 5 59 0)
   <-> hour (mkTime 7 5 0 0) = hour (mkTime 7 5 59 0) /\
       minute (mkTime 7 5 0 0) = minute (mkTime 7 5 59 0)).
Proof.
  assert (V1 : valid_time (mkTime 7 5 0 0)) by reflexivity.
  assert (V2 : valid_time (mkTime 7 5 59 0)) by reflexivity.
  split; [exact V1 | split; [exact V2 | split; [reflexivity |]]].
  exact (proj2 (strftime_HM_shows_hour_and_minute _ _ V1 V2)).
Defined.

(** ** Bedtimes on the two sides of midnight *)

Lemma sqrt_2_lt_2 : (sqrt 2 < 2)%R.
Proof.
  replace 2%R with (sqrt (2 * 2)) at 2 by (apply sqrt_square; lra).
  apply sqrt_lt_1_alt. lra.
Qed.

(** Bedtimes are compared as readings of the clock, not around it.
    With two rows the consistency is the distance between the two
    bedtimes in decimal hours over the square root of 2; so two
    bedtimes at least three hours apart on the dial read from 0 to 24,
    such as 23:30 and 00:30, always get the "varies significantly"
    recommendation. *)
Theorem two_night_consistency (r1 r2 : row) :
  let x := bedtime_hours (Bedtime r1) in
  let y := bedtime_hours (Bedtime r2) in
  let result := analyze_sleep_patterns [r1; r2] in
  sleep_consistency result = (Rabs (x - y) / sqrt 2)%R /\
  ((3 <= Rabs (x - y))%R ->
   nth_error (recommendations result) 1 = Some msg_bedtime_varies).
Proof.
  cbv zeta.
  assert (Hlen : (2 <= length [r1; r2])%nat) by (simpl; lia).
  destruct (analyze_at_least_two [r1; r2] Hlen)
    as (_ & Ec & dm & bm & tail & Er & _ & Hbm & _).
  set (x := bedtime_hours (Bedtime r1)) in *.
  set (y := bedtime_hours (Bedtime r2)) in *.
  assert (Es : sleep_consistency (analyze_sleep_patterns [r1; r2])
               = (Rabs (x - y) / sqrt 2)%R).
  { rewrite Ec. cbn [map]. fold x y.
    unfold Series_std.
    replace (Series_var 1 [x; y]) with (Rsqr (x - y) / 2)%R.
    - rewrite sqrt_div_alt by lra. now rewrite sqrt_Rsqr_abs.
    - unfold Series_var, Series_mean, Series_sum, Rsqr. simpl. field. }
  split; [exact Es |].
  intros H3. rewrite Er. cbn [nth_error]. f_equal.
  assert (Hgt : (sleep_consistency (analyze_sleep_patterns [r1; r2]) > 1.5)%R).
  { rewrite Es.
    pose proof sqrt_2_lt_2 as H2.
    assert (Hs : (0 < sqrt 2)%R) by (apply sqrt_lt_R0; lra).
    apply Rmult_lt_reg_r with (sqrt 2); [exact Hs |].
    unfold Rdiv. rewrite Rmult_assoc, Rinv_l, Rmult_1_r by lra. nra. }
  destruct Hbm as [[_ ->] | [[[_ H] _] | [H _]]]; [reflexivity | lra | lra].
Qed.

Lemma two_night_consistency_witness :
  (3 <= Rabs
          (bedtime_hours (TimeCell (time_of_day 23 30))
           - bedtime_hours (TimeCell (time_of_day 0 30))))%R /\
  nth_error
    (recommendations
       (analyze_sleep_patterns
          [mkRow 739193 (TimeCell (time_of_day 23 30))
                 (TimeCell (time_of_day 7 30)) 8%R;
           mkRow 739194 (TimeCell (time_of_day 0 30))
                 (TimeCell (time_of_day 8 30)) 8%R])) 1
  = Some msg_bedtime_varies.
Proof.
  assert (H : (3 <= Rabs
                      (bedtime_hours (TimeCell (time_of_day 23 30))
                       - bedtime_hours (TimeCell (time_of_day 0 30))))%R).
  { cbn [bedtime_hours hour_of minute_of time_of_day hour minute].
    rewrite Rabs_right; lra. }
  split; [exact H |].
  exact (proj2 (two_night_consistency
                  (mkRow 739193 (TimeCell (time_of_day 23 30))
                         (TimeCell (time_of_day 7 30)) 8%R)
                  (mkRow 739194 (TimeCell (time_of_day 0 30))
                         (TimeCell (time_of_day 8 30)) 8%R)) H).
Defined.
